(** * Random-walk Metropolis: simulation driver and scale sweep

    A shallow embedding of [interfaces/simulation.py] (class
    [MCMCSimulation]) and of [experiment_RWM_GPU.py] (the scale sweep
    [run_study] and its helpers), with the properties their
    specification states about them.

    Conventions of the embedding:
    - Python [int] is [Z]; a Python/numpy float is an exact rational [Q]
      (binary64 rounding is outside the model, every concrete example
      below uses values on which both agree);
    - a raised exception is the left summand of [exn + A];
    - numpy's process-wide random generator, which the Python code
      reaches through the module [np.random], is an explicit state of
      type [G] threaded through every function that can touch it;
    - an object mutated in place is returned as a new value;
    - console output ([print], [tqdm]) and wall-clock measurements are
      left out; files written are recorded in a [World]. *)

From Stdlib Require Import ZArith QArith List String Bool Lia Lqa.
From stdpp Require Import gmap strings pretty.
Import ListNotations.
Open Scope string_scope.
Open Scope Z_scope.
Open Scope list_scope.

(** ** Python values and exceptions *)

Inductive exn : Type :=
| ValueError (msg : string)
| TypeError (msg : string)
| IndexError (msg : string).

(** The values a keyword argument of the sweep can carry. *)
Inductive PyVal : Type :=
| PyInt (z : Z)
| PyFloat (q : Q)
| PyFloats (l : list Q)
| PyPoints (l : list (list Q)).

(** A point of the state space: [dim] coordinates. *)
Definition Point : Type := list Q.

(** ** Target distributions

    The classes of [target_distributions] are not part of the embedded
    files; a target is the record of the class instantiated and of the
    arguments [get_target_distribution] passes to its constructor (the
    [device] argument is left out). *)
Inductive TargetDistribution : Type :=
| MultivariateNormalTorch (dim : Z)
| ScaledMultivariateNormalTorch (dim : Z)
| RoughCarpetDistributionTorch (dim : Z) (scaling : bool) (mode_centers mode_weights : PyVal)
| ThreeMixtureDistributionTorch (dim : Z) (scaling : bool) (mode_centers mode_weights : PyVal)
| HypercubeTorch (dim : Z) (left_boundary right_boundary : Z)
| IIDGammaTorch (dim : Z) (shape scale : Z)
| IIDBetaTorch (dim : Z) (alpha beta : Z)
| FullRosenbrockTorch (dim : Z) (a_coeff b_coeff mu : PyVal)
| EvenRosenbrockTorch (dim : Z) (a_coeff b_coeff mu : PyVal)
| HybridRosenbrockTorch (n1 n2 : PyVal) (a_coeff b_coeff mu : PyVal)
| NealFunnelTorch (dim : Z) (mu_v sigma_v_sq mu_z : PyVal)
| SuperFunnelTorch (J K : PyVal) (X_data Y_data : list PyVal)
    (prior_hypermean_std prior_tau_scale : PyVal)
| MultivariateNormal (dim : Z)
| RoughCarpetDistribution (dim : Z) (scaling : bool) (mode_centers mode_weights : PyVal)
| ThreeMixtureDistribution (dim : Z) (scaling : bool) (mode_centers mode_weights : PyVal)
| Hypercube (dim : Z) (left_boundary right_boundary : Z)
| IIDGamma (dim : Z) (shape scale : Z)
| IIDBeta (dim : Z) (alpha beta : Z).

(** ** numpy array operations used by the diagnostics *)

(** [np.sum] of a one-dimensional array. *)
Definition np_sum (l : list Q) : Q := fold_left Qplus l 0%Q.

(** [np.mean] of a one-dimensional array.  On an empty array numpy
    answers [nan]; here the quotient by zero is [0], and no caller
    reaches that case (see [squared_jumps_length]). *)
Definition np_mean (l : list Q) : Q :=
  (np_sum l / inject_Z (Z.of_nat (length l)))%Q.

(** [a - b] on two rows of equal length. *)
Definition row_sub (a b : Point) : Point :=
  map (fun ab => (fst ab - snd ab)%Q) (combine a b).

(** [np.sum((c[1:] - c[:-1]) ** 2, axis=1)] for the two-dimensional
    array [c] whose rows are the states of a chain. *)
Definition squared_jumps (c : list Point) : list Q :=
  map (fun ab => np_sum (map (fun d => (d ^ 2)%Q) (row_sub (fst ab) (snd ab))))
      (combine (tl c) (removelast c)).

(** ** The Metropolis-Hastings algorithm object *)

Module MHAlgorithm.

Record t : Type := mk {
  dim : Z;
  var : Q;
  target_dist : option TargetDistribution;
  symmetric : bool;
  chain : list Point;
  num_acceptances : Z;
  acceptance_rate : Q
}.

Definition with_chain (a : t) (c : list Point) (n : Z) (r : Q) : t :=
  {| dim := dim a; var := var a; target_dist := target_dist a;
     symmetric := symmetric a; chain := c; num_acceptances := n;
     acceptance_rate := r |}.

Section Engine.
(** State of the process-wide generator. *)
Variable G : Type.
(** The initial state of a chain of the given dimension. *)
Variable initial_state : Z -> Point.
(** [ProposalGenerator.sample]: a candidate drawn around the current
    state with the configured variance. *)
Variable sample : Q -> Point -> G -> Point * G.
(** The acceptance test of one step: it evaluates the target at the
    current state and at the candidate, draws [u] and decides
    [log u <= min(0, log_density(y) - log_density(x))]. *)
Variable accepts : option TargetDistribution -> Point -> Point -> G -> bool * G.

(** Modelled from the spec: the constructor of [MHAlgorithm]
    ([interfaces/metropolis.py] is not among the embedded files).
    The chain starts with the initial state at index 0 and the
    diagnostics start at zero; the arguments for parallel tempering
    are accepted and not used. *)
Definition new (d : Z) (sigma : Q) (target : option TargetDistribution)
    (sym : bool) (beta_ladder : option (list Q))
    (swap_acceptance_rate : option Q) (g : G) : (exn + t) * G :=
  (inr {| dim := d; var := sigma; target_dist := target; symmetric := sym;
          chain := [initial_state d]; num_acceptances := 0;
          acceptance_rate := 0%Q |}, g).

(** Modelled from the spec: [MHAlgorithm.step] (section 4.3).  With
    [x] the last state of the chain and [y] the candidate, the step
    appends [y] and counts an acceptance when the test succeeds, and
    appends [x] again otherwise. *)
Definition step (a : t) (g : G) : t * G :=
  let x := List.last (chain a) [] in
  let '(y, g1) := sample (var a) x g in
  let '(ok, g2) := accepts (target_dist a) x y g1 in
  let c := chain a ++ [if ok then y else x] in
  let n := num_acceptances a + (if ok then 1 else 0) in
  (with_chain a c n (inject_Z n / inject_Z (Z.of_nat (length c) - 1))%Q, g2).

(** Modelled from the spec: [MHAlgorithm.reset] returns the object
    to [Initialized], the chain holding its initial state only and
    the diagnostics cleared. *)
Definition reset (a : t) : t := with_chain a (firstn 1 (chain a)) 0 0%Q.

(** [k] successive steps. *)
Fixpoint steps (k : nat) (a : t) (g : G) : t * G :=
  match k with
  | O => (a, g)
  | S k' => let '(a1, g1) := step a g in steps k' a1 g1
  end.
End Engine.

End MHAlgorithm.

(** ** [MCMCSimulation] *)

Module MCMCSimulation.

Record t : Type := mk {
  num_iterations : Z;
  burn_in : Z;
  target_dist : option TargetDistribution;
  algorithm : MHAlgorithm.t
}.

Definition with_algorithm (self : t) (a : MHAlgorithm.t) : t :=
  {| num_iterations := num_iterations self; burn_in := burn_in self;
     target_dist := target_dist self; algorithm := a |}.

Definition not_run_yet : exn := ValueError "The algorithm has not been run yet.".
Definition reset_first : exn :=
  ValueError "Please reset the algorithm before running it again.".

(** [has_run]: [len(self.algorithm.chain) > 1]. *)
Definition has_run (self : t) : bool :=
  (1 <? length (MHAlgorithm.chain (algorithm self)))%nat.

(** [acceptance_rate]. *)
Definition acceptance_rate (self : t) : exn + Q :=
  if negb (has_run self) then inl not_run_yet
  else inr (MHAlgorithm.acceptance_rate (algorithm self)).

(** [expected_squared_jump_distance].  The slice [chain[self.burn_in:]]
    is taken in the branch where [self.burn_in] is positive. *)
Definition expected_squared_jump_distance (self : t) : exn + Q :=
  if negb (has_run self) then inl not_run_yet
  else
    let chain := MHAlgorithm.chain (algorithm self) in
    if (0 <? burn_in self) && (burn_in self + 1 <? Z.of_nat (length chain)) then
      let chain_post_burnin := skipn (Z.to_nat (burn_in self)) chain in
      inr (np_mean (squared_jumps chain_post_burnin))
    else if burn_in self =? 0 then
      inr (np_mean (squared_jumps chain))
    else inr 0%Q.

Section Driver.
Variable G : Type.
(** [np.random.seed]: the generator state a seed determines, or the
    exception numpy raises for a seed it does not take. *)
Variable np_random_seed : Z -> exn + G.
Variable sample : Q -> Point -> G -> Point * G.
Variable accepts : option TargetDistribution -> Point -> Point -> G -> bool * G.

(** [__init__].  [algorithm_cls] is the class passed as [algorithm];
    it is called before the generator is seeded, and the generator
    is seeded only under [if seed:], that is for a seed that is
    neither [None] nor [0]. *)
Definition init (d : Z) (sigma : Q) (n : Z)
    (algorithm_cls : Z -> Q -> option TargetDistribution -> bool ->
                     option (list Q) -> option Q -> G -> (exn + MHAlgorithm.t) * G)
    (target : option TargetDistribution) (sym : bool) (seed : option Z)
    (beta_ladder : option (list Q)) (swap_acceptance_rate : option Q)
    (b : Z) (g : G) : (exn + t) * G :=
  let stored_burn_in := Z.max 0 (Z.min b (n - 1)) in
  match algorithm_cls d sigma target sym beta_ladder swap_acceptance_rate g with
  | (inl e, g1) => (inl e, g1)
  | (inr a, g1) =>
      let self := {| num_iterations := n; burn_in := stored_burn_in;
                     target_dist := target; algorithm := a |} in
      match seed with
      | None => (inr self, g1)
      | Some s =>
          if s =? 0 then (inr self, g1)
          else match np_random_seed s with
               | inl e => (inl e, g1)
               | inr g2 => (inr self, g2)
               end
      end
  end.

(** [reset]. *)
Definition reset (self : t) : t :=
  with_algorithm self (MHAlgorithm.reset (algorithm self)).

(** [generate_samples]: [range(self.num_iterations)] is empty for a
    non-positive count. *)
Definition generate_samples (self : t) (g : G) : (exn + list Point) * t * G :=
  if has_run self then (inl reset_first, self, g)
  else
    let '(a, g') := MHAlgorithm.steps G sample accepts
                      (Z.to_nat (num_iterations self)) (algorithm self) g in
    (inr (MHAlgorithm.chain a), with_algorithm self a, g').
End Driver.

End MCMCSimulation.

(** ** The scale sweep of [experiment_RWM_GPU.py] *)

(** [calculate_hybrid_rosenbrock_dim]. *)
Definition calculate_hybrid_rosenbrock_dim (n1 n2 : Z) : Z := 1 + n2 * (n1 - 1).

(** [calculate_super_funnel_dim]. *)
Definition calculate_super_funnel_dim (J K : Z) : Z := J + J * K + 1 + K + 1 + 1.

(** [kwargs.get(key, default)]. *)
Definition kwargs_get (kwargs : gmap string PyVal) (key : string) (d : PyVal) : PyVal :=
  default d (kwargs !! key).

(** The default mode centres of the three-component mixture:
    [[-5.0] + [0.0] * (dim - 1)], [[0.0] * dim], [[5.0] + [0.0] * (dim - 1)]. *)
Definition three_mixture_centers (dim : Z) : PyVal :=
  PyPoints [ (-5)%Q :: repeat 0%Q (Z.to_nat (dim - 1));
             repeat 0%Q (Z.to_nat dim);
             5%Q :: repeat 0%Q (Z.to_nat (dim - 1)) ].

Definition unknown_target : exn := ValueError "Unknown target distribution name".

(** The names [get_target_distribution] answers with [use_torch=True]. *)
Definition torch_targets : list string :=
  [ "MultivariateNormal"; "MultivariateNormalScaled"; "RoughCarpet";
    "RoughCarpetScaled"; "ThreeMixture"; "ThreeMixtureScaled"; "Hypercube";
    "IIDGamma"; "IIDBeta"; "FullRosenbrock"; "EvenRosenbrock";
    "HybridRosenbrock"; "NealFunnel"; "SuperFunnel" ].

(** The proposal families [run_study] maps a scale parameter to. *)
Definition proposal_names : list string := [ "Normal"; "Laplace"; "UniformRadius" ].

Section Targets.
(** The synthetic regression data of the super-funnel, generated from
    [J], [n_per_group] and [K] after [torch.manual_seed(42)], or the
    exception the generation raises on arguments it cannot use. *)
Variable super_funnel_data : PyVal -> PyVal -> PyVal -> exn + (list PyVal * list PyVal).

(** [get_target_distribution]: one chain of name comparisons per
    backend, closed by the [ValueError] for an unknown name. *)
Definition get_target_distribution (name : string) (dim : Z) (use_torch : bool)
    (kwargs : gmap string PyVal) : exn + TargetDistribution :=
  let rough_centers := kwargs_get kwargs "mode_centers" (PyFloats [(-4)%Q; 0%Q; 4%Q]) in
  let rough_weights := kwargs_get kwargs "mode_weights" (PyFloats [1#2; 3#10; 1#5]%Q) in
  let mix_centers := kwargs_get kwargs "mode_centers" (three_mixture_centers dim) in
  let mix_weights := kwargs_get kwargs "mode_weights" (PyFloats [1#3; 1#3; 1#3]%Q) in
  let a_coeff := kwargs_get kwargs "a_coeff" (PyFloat (1#20)) in
  let b_coeff := kwargs_get kwargs "b_coeff" (PyFloat 5) in
  let mu := kwargs_get kwargs "mu" (PyFloat 1) in
  if use_torch then
    if String.eqb name "MultivariateNormal" then inr (MultivariateNormalTorch dim)
    else if String.eqb name "MultivariateNormalScaled" then
      inr (ScaledMultivariateNormalTorch dim)
    else if String.eqb name "RoughCarpet" then
      inr (RoughCarpetDistributionTorch dim false rough_centers rough_weights)
    else if String.eqb name "RoughCarpetScaled" then
      inr (RoughCarpetDistributionTorch dim true rough_centers rough_weights)
    else if String.eqb name "ThreeMixture" then
      inr (ThreeMixtureDistributionTorch dim false mix_centers mix_weights)
    else if String.eqb name "ThreeMixtureScaled" then
      inr (ThreeMixtureDistributionTorch dim true mix_centers mix_weights)
    else if String.eqb name "Hypercube" then inr (HypercubeTorch dim (-1) 1)
    else if String.eqb name "IIDGamma" then inr (IIDGammaTorch dim 2 3)
    else if String.eqb name "IIDBeta" then inr (IIDBetaTorch dim 2 3)
    else if String.eqb name "FullRosenbrock" then
      inr (FullRosenbrockTorch dim a_coeff b_coeff mu)
    else if String.eqb name "EvenRosenbrock" then
      inr (EvenRosenbrockTorch dim a_coeff b_coeff mu)
    else if String.eqb name "HybridRosenbrock" then
      inr (HybridRosenbrockTorch (kwargs_get kwargs "n1" (PyInt 3))
             (kwargs_get kwargs "n2" (PyInt 5)) a_coeff b_coeff mu)
    else if String.eqb name "NealFunnel" then
      inr (NealFunnelTorch dim (kwargs_get kwargs "mu_v" (PyFloat 0))
             (kwargs_get kwargs "sigma_v_sq" (PyFloat 9))
             (kwargs_get kwargs "mu_z" (PyFloat 0)))
    else if String.eqb name "SuperFunnel" then
      let J := kwargs_get kwargs "J" (PyInt 5) in
      let K := kwargs_get kwargs "K" (PyInt 3) in
      let n_per_group := kwargs_get kwargs "n_per_group" (PyInt 20) in
      match super_funnel_data J n_per_group K with
      | inl e => inl e
      | inr (X_data, Y_data) =>
          inr (SuperFunnelTorch J K X_data Y_data
                 (kwargs_get kwargs "prior_hypermean_std" (PyFloat 10))
                 (kwargs_get kwargs "prior_tau_scale" (PyFloat (5#2))))
      end
    else inl unknown_target
  else
    if String.eqb name "MultivariateNormal" then inr (MultivariateNormal dim)
    else if String.eqb name "RoughCarpet" then
      inr (RoughCarpetDistribution dim false rough_centers rough_weights)
    else if String.eqb name "RoughCarpetScaled" then
      inr (RoughCarpetDistribution dim true rough_centers rough_weights)
    else if String.eqb name "ThreeMixture" then
      inr (ThreeMixtureDistribution dim false mix_centers mix_weights)
    else if String.eqb name "ThreeMixtureScaled" then
      inr (ThreeMixtureDistribution dim true mix_centers mix_weights)
    else if String.eqb name "Hypercube" then inr (Hypercube dim (-1) 1)
    else if String.eqb name "IIDGamma" then inr (IIDGamma dim 2 3)
    else if String.eqb name "IIDBeta" then inr (IIDBeta dim 2 3)
    else if existsb (String.eqb name)
              [ "FullRosenbrock"; "EvenRosenbrock"; "HybridRosenbrock";
                "NealFunnel"; "SuperFunnel" ] then
      inl (ValueError (name +:+ " distribution only available with PyTorch (use_torch=True)"))
    else inl unknown_target.
End Targets.

(** The [proposal_config] dictionary built for one grid point: the
    family name and its single parameter.  The Laplace parameter is a
    scalar, or the anisotropic vector scaled by the variance. *)
Inductive ProposalConfig : Type :=
| NormalConfig (base_variance_scalar : Q)
| LaplaceConfig (base_variance_vector : Q + list Q)
| UniformRadiusConfig (base_radius : Q).

(** What the sweep reads from one finished simulation. *)
Record SimResult : Type := {
  run_chain : list Point;
  run_acceptance_rate : Q;
  run_esjd : Q
}.

(** The dictionary [data] that [run_study] writes and returns (the
    entries [total_time] and [times] are wall-clock readings). *)
Module SweepData.
Record t : Type := mk {
  target_distribution : string;
  proposal_distribution : string;
  dimension : Z;
  num_iterations : Z;
  seed : Z;
  max_esjd : Q;
  max_acceptance_rate : Q;
  max_scale_param : Q;
  expected_squared_jump_distances : list Q;
  acceptance_rates : list Q;
  scale_param_range : list Q
}.
End SweepData.

(** What a sweep leaves on disk. *)
Inductive Output : Type :=
| ResultsFile (filename : string) (data : SweepData.t)
| FigureFile (filename : string).

(** [np.linspace(start, stop, num)]: [num] evenly spaced samples, the
    last one set to [stop]. *)
Definition np_linspace (start stop : Q) (num : nat) : list Q :=
  let step := ((stop - start) / inject_Z (Z.of_nat num - 1))%Q in
  map (fun i => if (i =? num - 1)%nat then stop
                else (start + inject_Z (Z.of_nat i) * step)%Q)
      (seq 0 num).

(** Python's [max] of a list: the first of its largest elements. *)
Definition py_max (l : list Q) : exn + Q :=
  match l with
  | [] => inl (ValueError "max() arg is an empty sequence")
  | x :: r => inr (fold_left (fun m y => if Qle_bool y m then m else y) r x)
  end.

(** [np.argmax] scanning from index [i]: [best] is the index of the
    largest value [m] seen so far, replaced only by a strictly larger one. *)
Fixpoint argmax_from (l : list Q) (i best : nat) (m : Q) : nat :=
  match l with
  | [] => best
  | y :: r => if Qle_bool y m then argmax_from r (S i) best m
              else argmax_from r (S i) i y
  end.

(** [np.argmax] of a list: the first index of its maximum. *)
Definition np_argmax (l : list Q) : exn + nat :=
  match l with
  | [] => inl (ValueError "attempt to get argmax of an empty sequence")
  | x :: r => inr (argmax_from r 1 0 x)
  end.

(** A block parameter of a family-constrained target.  The command line
    declares these with [type=int]; for any other value the dimension
    arithmetic is answered with a [TypeError] here. *)
Definition as_int (v : PyVal) : exn + Z :=
  match v with
  | PyInt z => inr z
  | _ => inl (TypeError "integer block parameter expected")
  end.

(** The branch of [run_study] headed "Handle special dimension
    calculations". *)
Definition actual_dimension (target_name : string) (dim : Z)
    (kwargs : gmap string PyVal) : exn + Z :=
  if String.eqb target_name "HybridRosenbrock" then
    match as_int (kwargs_get kwargs "n1" (PyInt 3)),
          as_int (kwargs_get kwargs "n2" (PyInt 5)) with
    | inr n1, inr n2 => inr (calculate_hybrid_rosenbrock_dim n1 n2)
    | inl e, _ => inl e
    | _, inl e => inl e
    end
  else if String.eqb target_name "SuperFunnel" then
    match as_int (kwargs_get kwargs "J" (PyInt 5)),
          as_int (kwargs_get kwargs "K" (PyInt 3)) with
    | inr J, inr K => inr (calculate_super_funnel_dim J K)
    | inl e, _ => inl e
    | _, inl e => inl e
    end
  else inr dim.

(** The [proposal_config] of one grid point; [proposal_params] is used
    when it is a non-empty dictionary with the key ['anisotropic']. *)
Definition proposal_config_for (proposal_name : string) (scale_param : Q)
    (actual_dim : Z) (proposal_params : option (gmap string (list Q)))
    : exn + ProposalConfig :=
  if String.eqb proposal_name "Normal" then
    inr (NormalConfig (scale_param ^ 2 / inject_Z (actual_dim ^ 1))%Q)
  else if String.eqb proposal_name "Laplace" then
    let effective_variance := (scale_param ^ 2 / inject_Z (actual_dim ^ 1))%Q in
    match proposal_params ≫= (fun m => m !! "anisotropic") with
    | Some v => inr (LaplaceConfig (inr (map (fun x => (x * effective_variance)%Q) v)))
    | None => inr (LaplaceConfig (inl effective_variance))
    end
  else if String.eqb proposal_name "UniformRadius" then
    inr (UniformRadiusConfig scale_param)
  else inl (ValueError ("Unknown proposal name: " +:+ proposal_name)).

(** The name shared by the three files of a sweep. *)
Definition run_label (target_name proposal_name : string)
    (actual_dim num_iters seed : Z) : string :=
  target_name +:+ "_" +:+ proposal_name +:+ "_RWM_GPU_dim" +:+ pretty actual_dim
  +:+ "_" +:+ pretty num_iters +:+ "iters_seed" +:+ pretty seed.

Section Sweep.
Variable G : Type.
Variable super_funnel_data : PyVal -> PyVal -> PyVal -> exn + (list PyVal * list PyVal).
(** One simulation of the accelerated driver [MCMCSimulation_GPU]
    (its class is not among the embedded files): construction with
    [dim], [proposal_config], [num_iterations], the target, [seed] and
    [burn_in], then [generate_samples], [acceptance_rate] and
    [expected_squared_jump_distance]; any of them may raise. *)
Variable simulate : Z -> ProposalConfig -> Z -> TargetDistribution -> Z -> Z ->
                    G -> (exn + SimResult) * G.

(** The generator and the files written so far. *)
Record World : Type := {
  generator : G;
  outputs : list Output
}.

(** The loop over [scale_param_range], appending to
    [acceptance_rates] and [expected_squared_jump_distances]. *)
Fixpoint sweep (proposal_name : string) (actual_dim num_iters : Z)
    (target : TargetDistribution) (seed burn_in : Z)
    (proposal_params : option (gmap string (list Q)))
    (grid : list Q) (acceptance_rates esjds : list Q) (g : G)
    : (exn + list Q * list Q) * G :=
  match grid with
  | [] => (inr (acceptance_rates, esjds), g)
  | scale_param :: rest =>
      match proposal_config_for proposal_name scale_param actual_dim proposal_params with
      | inl e => (inl e, g)
      | inr proposal_config =>
          match simulate actual_dim proposal_config num_iters target seed burn_in g with
          | (inl e, g1) => (inl e, g1)
          | (inr r, g1) =>
              sweep proposal_name actual_dim num_iters target seed burn_in
                proposal_params rest
                (acceptance_rates ++ [run_acceptance_rate r])
                (esjds ++ [run_esjd r]) g1
          end
      end
  end.

(** The one simulation of a grid point: it answers [r] for the scale
    parameter [scale]. *)
Definition observed (proposal_name : string) (actual_dim num_iters : Z)
    (target : TargetDistribution) (seed burn_in : Z)
    (params : option (gmap string (list Q))) (scale : Q) (r : SimResult) : Prop :=
  exists cfg g g1,
    proposal_config_for proposal_name scale actual_dim params = inr cfg /\
    simulate actual_dim cfg num_iters target seed burn_in g = (inr r, g1).

(** [run_study].  The two figures drawn after the results file are
    recorded by the files they are saved to. *)
Definition run_study (dim : Z) (target_name : string) (num_iters : Z)
    (var_max : Q) (seed burn_in : Z) (proposal_name : string)
    (proposal_params : option (gmap string (list Q)))
    (kwargs : gmap string PyVal) (w : World) : (exn + SweepData.t) * World :=
  match actual_dimension target_name dim kwargs with
  | inl e => (inl e, w)
  | inr actual_dim =>
  match get_target_distribution super_funnel_data target_name dim true kwargs with
  | inl e => (inl e, w)
  | inr target_distribution =>
  let scale_param_range := np_linspace (1#100) var_max 40 in
  match sweep proposal_name actual_dim num_iters target_distribution seed burn_in
          proposal_params scale_param_range [] [] (generator w) with
  | (inl e, g1) => (inl e, {| generator := g1; outputs := outputs w |})
  | (inr (acceptance_rates, esjds), g1) =>
  let w1 := {| generator := g1; outputs := outputs w |} in
  match py_max esjds with
  | inl e => (inl e, w1)
  | inr max_esjd =>
  match np_argmax esjds with
  | inl e => (inl e, w1)
  | inr max_esjd_index =>
  match acceptance_rates !! max_esjd_index, scale_param_range !! max_esjd_index with
  | Some max_acceptance_rate, Some max_scale_param =>
      let data := {|
        SweepData.target_distribution := target_name;
        SweepData.proposal_distribution := proposal_name;
        SweepData.dimension := actual_dim;
        SweepData.num_iterations := num_iters;
        SweepData.seed := seed;
        SweepData.max_esjd := max_esjd;
        SweepData.max_acceptance_rate := max_acceptance_rate;
        SweepData.max_scale_param := max_scale_param;
        SweepData.expected_squared_jump_distances := esjds;
        SweepData.acceptance_rates := acceptance_rates;
        SweepData.scale_param_range := scale_param_range |} in
      let label := run_label target_name proposal_name actual_dim num_iters seed in
      let saved := outputs w ++ [ResultsFile ("data/" +:+ label +:+ ".json") data] in
      (* the traceplot of one more run at the selected scale *)
      match proposal_config_for proposal_name max_scale_param actual_dim
              proposal_params with
      | inl e => (inl e, {| generator := g1; outputs := saved |})
      | inr optimal_proposal_config =>
          match simulate actual_dim optimal_proposal_config num_iters
                  target_distribution seed burn_in g1 with
          | (inl e, g2) => (inl e, {| generator := g2; outputs := saved |})
          | (inr _, g2) =>
              let traceplot := FigureFile ("images/traceplot_" +:+ label +:+ ".png") in
              let density := FigureFile ("images/density2D_" +:+ label +:+ ".png") in
              (inr data,
               {| generator := g2;
                  outputs := saved ++ traceplot
                             :: (if 2 <=? actual_dim then [density] else []) |})
          end
      end
  | _, _ => (inl (IndexError "list index out of range"), w1)
  end end end end end end.
End Sweep.

(** ** The life cycle of a simulation, as the specification names it *)

Inductive RunState : Type := Initialized | Running | Completed.

Section Lifecycle.
Variable G : Type.
Variable np_random_seed : Z -> exn + G.
Variable initial_state : Z -> Point.
Variable sample : Q -> Point -> G -> Point * G.
Variable accepts : option TargetDistribution -> Point -> Point -> G -> bool * G.

(** [reaches st self]: the simulation object [self] is obtained
    through its interface and is in run state [st].  Construction
    gives [Initialized]; a call of [generate_samples] that returns
    gives [Completed], one that raises changes nothing; [reset] gives
    [Initialized].  The generator is process-wide, so every call
    meets an arbitrary generator state.  [Running] holds only inside
    [generate_samples]. *)
Inductive reaches : RunState -> MCMCSimulation.t -> Prop :=
| reaches_init d sigma n target sym seed beta_ladder swap b g self g' :
    MCMCSimulation.init G np_random_seed d sigma n
      (MHAlgorithm.new G initial_state) target sym seed beta_ladder swap b g
    = (inr self, g') ->
    reaches Initialized self
| reaches_reset st self :
    reaches st self ->
    reaches Initialized (MCMCSimulation.reset self)
| reaches_run st self g c self' g' :
    reaches st self ->
    MCMCSimulation.generate_samples G sample accepts self g = (inr c, self', g') ->
    reaches Completed self'
| reaches_raise st self g e self' g' :
    reaches st self ->
    MCMCSimulation.generate_samples G sample accepts self g = (inl e, self', g') ->
    reaches st self'.

(** One whole run: construction from a configuration, then
    [generate_samples]; the answer is the chain, or the exception
    raised on the way. *)
Definition run_once
    (algorithm_cls : Z -> Q -> option TargetDistribution -> bool ->
                     option (list Q) -> option Q -> G -> (exn + MHAlgorithm.t) * G)
    (d : Z) (sigma : Q) (n : Z) (target : option TargetDistribution)
    (seed : option Z) (b : Z) (g : G) : exn + list Point :=
  match MCMCSimulation.init G np_random_seed d sigma n algorithm_cls
          target true seed None None b g with
  | (inl e, _) => inl e
  | (inr self, g1) =>
      fst (fst (MCMCSimulation.generate_samples G sample accepts self g1))
  end.
End Lifecycle.

(** The diagnostic as the specification words it: the mean of the
    squared jumps between consecutive states strictly after the burn-in
    index, and [0] when fewer than two such states exist. *)
Definition esjd_strictly_after_burn_in (self : MCMCSimulation.t) : Q :=
  let post := skipn (S (Z.to_nat (MCMCSimulation.burn_in self)))
                (MHAlgorithm.chain (MCMCSimulation.algorithm self)) in
  if (length post <? 2)%nat then 0%Q else np_mean (squared_jumps post).

(** The shape of a simulation in each run state: the stored burn-in is
    clamped, and the chain holds the initial state alone before a run
    and one more state per iteration after it. *)
Definition shaped (st : RunState) (self : MCMCSimulation.t) : Prop :=
  0 <= MCMCSimulation.burn_in self /\
  (0 < MCMCSimulation.num_iterations self ->
   MCMCSimulation.burn_in self <= MCMCSimulation.num_iterations self - 1) /\
  match st with
  | Initialized =>
      length (MHAlgorithm.chain (MCMCSimulation.algorithm self)) = 1%nat
  | Running => False
  | Completed =>
      length (MHAlgorithm.chain (MCMCSimulation.algorithm self))
      = (1 + Z.to_nat (MCMCSimulation.num_iterations self))%nat
  end.

(** The squared Euclidean distance of the jump from [x] to [y]. *)
Definition squared_jump (x y : Point) : Q :=
  np_sum (map (fun d => (d ^ 2)%Q) (row_sub y x)).

(** ** A small concrete instance

    A linear congruential generator stands for numpy's, a proposal that
    moves every coordinate by -1, 0 or 1, and an acceptance test read
    off the generator.  It serves to run the definitions on explicit
    inputs. *)
Module Lcg.
Definition G : Type := Z.

Definition next (g : G) : G := (1103515245 * g + 12345) mod 2 ^ 31.

Definition np_random_seed (s : Z) : exn + G :=
  if (0 <=? s) && (s <? 2 ^ 32) then inr s
  else inl (ValueError "Seed must be between 0 and 2**32 - 1").

Definition initial_state (d : Z) : Point := repeat 0%Q (Z.to_nat d).

Definition sample (sigma : Q) (x : Point) (g : G) : Point * G :=
  (map (fun c => (c + inject_Z (g mod 3 - 1))%Q) x, next g).

Definition accepts (target : option TargetDistribution) (x y : Point) (g : G)
    : bool * G :=
  (Z.even (g / 8), next g).

(** A simulation of the accelerated driver for the sweep: the
    acceptance rate falls with the scale and the jump distance peaks
    inside the grid. *)
Definition simulate (d : Z) (cfg : ProposalConfig) (n : Z)
    (target : TargetDistribution) (seed b : Z) (g : G) : (exn + SimResult) * G :=
  let v := match cfg with
           | NormalConfig v => v
           | LaplaceConfig (inl v) => v
           | LaplaceConfig (inr _) => 1%Q
           | UniformRadiusConfig r => r
           end in
  (inr {| run_chain := [initial_state d];
          run_acceptance_rate := (1 / (1 + v))%Q;
          run_esjd := (v * (2 - v))%Q |}, next g).

Definition super_funnel_data (J n_per_group K : PyVal)
    : exn + (list PyVal * list PyVal) := inr ([], []).

(** A one-dimensional simulation as [__init__] stores it, for
    [num_iterations = n] and the burn-in argument [b]. *)
Definition constructed (n b : Z) : MCMCSimulation.t :=
  {| MCMCSimulation.num_iterations := n;
     MCMCSimulation.burn_in := Z.max 0 (Z.min b (n - 1));
     MCMCSimulation.target_dist := None;
     MCMCSimulation.algorithm :=
       {| MHAlgorithm.dim := 1; MHAlgorithm.var := 1%Q;
          MHAlgorithm.target_dist := None; MHAlgorithm.symmetric := true;
          MHAlgorithm.chain := [[0%Q]]; MHAlgorithm.num_acceptances := 0;
          MHAlgorithm.acceptance_rate := 0%Q |} |}.

(** The same simulation after [generate_samples], called when the
    generator is in state [g]. *)
Definition completed (n b : Z) (g : G) : MCMCSimulation.t :=
  snd (fst (MCMCSimulation.generate_samples G sample accepts (constructed n b) g)).
End Lcg.

(** ** Further parts of the two files *)

(** The names [get_target_distribution] answers with [use_torch=False]. *)
Definition cpu_targets : list string :=
  [ "MultivariateNormal"; "RoughCarpet"; "RoughCarpetScaled"; "ThreeMixture";
    "ThreeMixtureScaled"; "Hypercube"; "IIDGamma"; "IIDBeta" ].

(** The names the branch for [use_torch=False] refuses by name. *)
Definition torch_only_targets : list string :=
  [ "FullRosenbrock"; "EvenRosenbrock"; "HybridRosenbrock"; "NealFunnel";
    "SuperFunnel" ].

(** The default of [run_study]'s parameter [target_name]. *)
Definition default_target_name : string := "MultivariateNormalTorch".


(** The step between two points of the grid of forty. *)
Definition grid_step (start stop : Q) : Q :=
  ((stop - start) / inject_Z (Z.of_nat 40 - 1))%Q.

(** The namespace [argparse] returns in the main block of
    [experiment_RWM_GPU.py]: every option parsed to its declared type. *)
Module Args.
Record t : Type := mk {
  dim : Z;
  target : string;
  num_iters : Z;
  var_max : Q;
  seed : Z;
  burn_in : Z;
  proposal : string;
  laplace_anisotropic : option string;
  hybrid_rosenbrock_n1 : Z;
  hybrid_rosenbrock_n2 : Z;
  neal_funnel_mu_v : Q;
  neal_funnel_sigma_v_sq : Q;
  neal_funnel_mu_z : Q;
  super_funnel_J : Z;
  super_funnel_K : Z;
  super_funnel_n_per_group : Z;
  super_funnel_prior_hypermean_std : Q;
  super_funnel_prior_tau_scale : Q
}.
End Args.

(** The block "Prepare kwargs" of the main block. *)
Definition cli_kwargs (args : Args.t) : gmap string PyVal :=
  if String.eqb (Args.target args) "HybridRosenbrock" then
    <["n2" := PyInt (Args.hybrid_rosenbrock_n2 args)]>
      (<["n1" := PyInt (Args.hybrid_rosenbrock_n1 args)]> ∅)
  else if String.eqb (Args.target args) "NealFunnel" then
    <["mu_z" := PyFloat (Args.neal_funnel_mu_z args)]>
      (<["sigma_v_sq" := PyFloat (Args.neal_funnel_sigma_v_sq args)]>
         (<["mu_v" := PyFloat (Args.neal_funnel_mu_v args)]> ∅))
  else if String.eqb (Args.target args) "SuperFunnel" then
    <["prior_tau_scale" := PyFloat (Args.super_funnel_prior_tau_scale args)]>
      (<["prior_hypermean_std" := PyFloat (Args.super_funnel_prior_hypermean_std args)]>
         (<["n_per_group" := PyInt (Args.super_funnel_n_per_group args)]>
            (<["K" := PyInt (Args.super_funnel_K args)]>
               (<["J" := PyInt (Args.super_funnel_J args)]> ∅))))
  else ∅.

Section Main.
Variable G : Type.
Variable super_funnel_data : PyVal -> PyVal -> PyVal -> exn + (list PyVal * list PyVal).
Variable simulate : Z -> ProposalConfig -> Z -> TargetDistribution -> Z -> Z ->
                    G -> (exn + SimResult) * G.
(** [json.loads] on the text of [--laplace_anisotropic]: the variance
    vector, or nothing for text that is not JSON. *)
Variable json_loads : string -> option (list Q).

(** The block "Prepare proposal parameters": the dictionary stays empty
    unless the proposal is Laplace and the option holds text that
    parses. *)
Definition cli_proposal_params (args : Args.t) : gmap string (list Q) :=
  match Args.laplace_anisotropic args with
  | Some text =>
      if String.eqb (Args.proposal args) "Laplace" && negb (String.eqb text "") then
        match json_loads text with
        | Some anisotropic_vector => <["anisotropic" := anisotropic_vector]> ∅
        | None => ∅
        end
      else ∅
  | None => ∅
  end.

(** The main block, from the parsed arguments on. *)
Definition main (args : Args.t) (w : World G) : (exn + SweepData.t) * World G :=
  run_study G super_funnel_data simulate
    (Args.dim args) (Args.target args) (Args.num_iters args) (Args.var_max args)
    (Args.seed args) (Args.burn_in args) (Args.proposal args)
    (Some (cli_proposal_params args)) (cli_kwargs args) w.
End Main.

(** * Properties *)

(** ** Lists of jumps *)

Lemma removelast_length {A} (l : list A) : length (removelast l) = (length l - 1)%nat.
Proof.
  induction l as [|x [|y r] IH]; simpl in *; try reflexivity.
  rewrite IH. lia.
Qed.

Lemma squared_jumps_length (c : list Point) :
  length (squared_jumps c) = (length c - 1)%nat.
Proof.
  unfold squared_jumps.
  rewrite length_map, length_combine, removelast_length.
  destruct c; simpl; lia.
Qed.

(** A chain of two states has the single jump between them. *)
Lemma squared_jumps_pair (x y : Point) :
  squared_jumps [x; y] = [np_sum (map (fun d => (d ^ 2)%Q) (row_sub y x))].
Proof. reflexivity. Qed.

(** ** The algorithm object *)

Section AlgorithmFacts.
Variable G : Type.
Variable sample : Q -> Point -> G -> Point * G.
Variable accepts : option TargetDistribution -> Point -> Point -> G -> bool * G.

Lemma step_chain (a : MHAlgorithm.t) (g : G) :
  exists p, MHAlgorithm.chain (fst (MHAlgorithm.step G sample accepts a g))
            = MHAlgorithm.chain a ++ [p].
Proof.
  unfold MHAlgorithm.step.
  destruct (sample _ _ g) as [y g1].
  destruct (accepts _ _ y g1) as [ok g2]. simpl. eauto.
Qed.

Lemma steps_length (k : nat) : forall (a : MHAlgorithm.t) (g : G),
  length (MHAlgorithm.chain (fst (MHAlgorithm.steps G sample accepts k a g)))
  = (length (MHAlgorithm.chain a) + k)%nat.
Proof.
  induction k as [|k IH]; intros a g; simpl.
  - lia.
  - destruct (step_chain a g) as [p Hp].
    destruct (MHAlgorithm.step G sample accepts a g) as [a1 g1]; simpl in Hp.
    rewrite IH, Hp, length_app. simpl. lia.
Qed.

(** Stepping never rewrites the states already in the chain. *)
Lemma steps_prefix (k : nat) : forall (a : MHAlgorithm.t) (g : G),
  exists more, MHAlgorithm.chain (fst (MHAlgorithm.steps G sample accepts k a g))
               = MHAlgorithm.chain a ++ more.
Proof.
  induction k as [|k IH]; intros a g; simpl.
  - exists []. now rewrite app_nil_r.
  - destruct (step_chain a g) as [p Hp].
    destruct (MHAlgorithm.step G sample accepts a g) as [a1 g1]; simpl in Hp.
    destruct (IH a1 g1) as [more Hm]. exists (p :: more).
    rewrite Hm, Hp, <- app_assoc. reflexivity.
Qed.

Lemma reset_chain_length (a : MHAlgorithm.t) :
  (length (MHAlgorithm.chain (MHAlgorithm.reset a)) <= 1)%nat.
Proof. simpl. rewrite length_firstn. lia. Qed.
End AlgorithmFacts.

(** ** Construction *)

Section Construction.
Variable G : Type.
Variable np_random_seed : Z -> exn + G.

Let cls_type : Type :=
  Z -> Q -> option TargetDistribution -> bool -> option (list Q) -> option Q ->
  G -> (exn + MHAlgorithm.t) * G.

(** What a successful construction stored. *)
Lemma init_fields d sigma n (cls : cls_type) target sym seed bl sw b g self g' :
  MCMCSimulation.init G np_random_seed d sigma n cls target sym seed bl sw b g
  = (inr self, g') ->
  MCMCSimulation.num_iterations self = n /\
  MCMCSimulation.burn_in self = Z.max 0 (Z.min b (n - 1)) /\
  exists g1, cls d sigma target sym bl sw g = (inr (MCMCSimulation.algorithm self), g1).
Proof.
  unfold MCMCSimulation.init.
  destruct (cls d sigma target sym bl sw g) as [[e|a] g1]; [discriminate|].
  destruct seed as [s|].
  - destruct (s =? 0).
    + intros [= <- <-]. simpl. eauto.
    + destruct (np_random_seed s); [discriminate|].
      intros [= <- <-]. simpl. eauto.
  - intros [= <- <-]. simpl. eauto.
Qed.


(** C10: construction seeds the generator only for a truthy seed.
    With seed [0] it does exactly what it does with no seed, and then
    the generator is left as the algorithm's constructor left it; a
    seed other than [0] replaces the generator state by the one
    [np.random.seed] gives. *)
Theorem init_seeds_only_truthy_seed d sigma n (cls : cls_type) target sym bl sw b g :
  MCMCSimulation.init G np_random_seed d sigma n cls target sym (Some 0) bl sw b g
  = MCMCSimulation.init G np_random_seed d sigma n cls target sym None bl sw b g
  /\ snd (MCMCSimulation.init G np_random_seed d sigma n cls target sym None bl sw b g)
     = snd (cls d sigma target sym bl sw g)
  /\ forall s,
     snd (MCMCSimulation.init G np_random_seed d sigma n cls target sym (Some s) bl sw b g)
     = if s =? 0 then snd (cls d sigma target sym bl sw g)
       else match fst (cls d sigma target sym bl sw g), np_random_seed s with
            | inr _, inr seeded => seeded
            | _, _ => snd (cls d sigma target sym bl sw g)
            end.
Proof.
  unfold MCMCSimulation.init.
  destruct (cls d sigma target sym bl sw g) as [[e|a] g1]; simpl.
  - repeat split. intros s. now destruct (s =? 0).
  - repeat split. intros s. destruct (s =? 0); [reflexivity|].
    now destruct (np_random_seed s).
Qed.
End Construction.

(** ** Single-run semantics *)

Section Runs.
Variable G : Type.
Variable np_random_seed : Z -> exn + G.
Variable initial_state : Z -> Point.
Variable sample : Q -> Point -> G -> Point * G.
Variable accepts : option TargetDistribution -> Point -> Point -> G -> bool * G.

Local Abbreviation generate := (MCMCSimulation.generate_samples G sample accepts).
Local Abbreviation reachable := (reaches G np_random_seed initial_state sample accepts).
Local Abbreviation chain_of self := (MHAlgorithm.chain (MCMCSimulation.algorithm self)).
Local Abbreviation iterations self := (Z.to_nat (MCMCSimulation.num_iterations self)).

Lemma has_run_length (self : MCMCSimulation.t) :
  MCMCSimulation.has_run self = true <-> (1 < length (chain_of self))%nat.
Proof. unfold MCMCSimulation.has_run. apply Nat.ltb_lt. Qed.

Lemma has_not_run_length (self : MCMCSimulation.t) :
  MCMCSimulation.has_run self = false <-> (length (chain_of self) <= 1)%nat.
Proof. unfold MCMCSimulation.has_run. apply Nat.ltb_ge. Qed.

(** A call that returns ran exactly [num_iterations] steps on a
    simulation that had not run. *)
Lemma generate_returns self g c self' g' :
  generate self g = (inr c, self', g') ->
  MCMCSimulation.has_run self = false /\
  c = chain_of self' /\
  MCMCSimulation.num_iterations self' = MCMCSimulation.num_iterations self /\
  MCMCSimulation.burn_in self' = MCMCSimulation.burn_in self /\
  length (chain_of self') = (length (chain_of self) + iterations self)%nat.
Proof.
  unfold MCMCSimulation.generate_samples.
  destruct (MCMCSimulation.has_run self) eqn:Hrun; [discriminate|].
  pose proof (steps_length G sample accepts (iterations self)
                (MCMCSimulation.algorithm self) g) as Hlen.
  destruct (MHAlgorithm.steps _ _ _ _ _ g) as [a g1]. simpl in Hlen.
  intros [= <- <- <-]. simpl. auto.
Qed.

(** A call that raises has stepped nothing and changed nothing. *)
Lemma generate_raises self g e self' g' :
  generate self g = (inl e, self', g') ->
  MCMCSimulation.has_run self = true /\ e = MCMCSimulation.reset_first /\
  self' = self /\ g' = g.
Proof.
  unfold MCMCSimulation.generate_samples.
  destruct (MCMCSimulation.has_run self).
  - intros [= <- <- <-]. auto.
  - destruct (MHAlgorithm.steps _ _ _ _ _ g). discriminate.
Qed.

Lemma generate_after_run self g :
  MCMCSimulation.has_run self = true ->
  generate self g = (inl MCMCSimulation.reset_first, self, g).
Proof. unfold MCMCSimulation.generate_samples. now intros ->. Qed.

Lemma shaped_nonempty st self :
  shaped st self -> (1 <= length (chain_of self))%nat.
Proof. intros (_ & _ & H). destruct st; [lia|contradiction|lia]. Qed.

Lemma reachable_shaped st self : reachable st self -> shaped st self.
Proof.
  induction 1 as [d sigma n target sym seed bl sw b g self g' Hinit
                 | st self _ IH
                 | st self g c self' g' _ IH Hgen
                 | st self g e self' g' _ IH Hgen].
  - destruct (init_fields _ _ _ _ _ _ _ _ _ _ _ _ _ _ _ Hinit) as (Hn & Hb & g1 & Hcls).
    unfold MHAlgorithm.new in Hcls. injection Hcls as Ha _.
    repeat split; [lia | lia | now rewrite <- Ha].
  - pose proof (shaped_nonempty _ _ IH) as Hne.
    destruct IH as (H0 & H1 & _). repeat split; auto.
    simpl. rewrite length_firstn. lia.
  - pose proof (shaped_nonempty _ _ IH) as Hne.
    destruct IH as (H0 & H1 & _).
    destruct (generate_returns _ _ _ _ _ Hgen) as (Hrun & _ & Hn & Hb & Hlen).
    apply has_not_run_length in Hrun.
    repeat split; rewrite ?Hn, ?Hb; auto. lia.
  - destruct (generate_raises _ _ _ _ _ Hgen) as (_ & _ & -> & _). exact IH.
Qed.

(** C3: on a simulation for which [has_run] is true,
    [generate_samples] raises and performs no step; so a second call
    without [reset] fails.  After [reset], [has_run] is false and a
    fresh run returns a chain of [num_iterations + 1] states. *)
Theorem generate_samples_needs_reset st self :
  reachable st self ->
  (forall g, MCMCSimulation.has_run self = true ->
     generate self g = (inl MCMCSimulation.reset_first, self, g)) /\
  (forall g c self' g',
     0 < MCMCSimulation.num_iterations self ->
     generate self g = (inr c, self', g') ->
     MCMCSimulation.has_run self' = true /\
     forall g2, generate self' g2 = (inl MCMCSimulation.reset_first, self', g2)) /\
  MCMCSimulation.has_run (MCMCSimulation.reset self) = false /\
  (forall g, exists self' g',
     generate (MCMCSimulation.reset self) g = (inr (chain_of self'), self', g') /\
     length (chain_of self') = (1 + iterations self)%nat).
Proof.
  intros Hreach.
  pose proof (reachable_shaped _ _ (reaches_reset _ _ _ _ _ _ _ Hreach)) as (_ & _ & Hlen1).
  pose proof (shaped_nonempty _ _ (reachable_shaped _ _ Hreach)) as Hne.
  assert (Hfresh : MCMCSimulation.has_run (MCMCSimulation.reset self) = false)
    by (apply has_not_run_length; lia).
  split; [|split; [|split]].
  - intros g Hrun. now apply generate_after_run.
  - intros g c self' g' Hn Hgen.
    destruct (generate_returns _ _ _ _ _ Hgen) as (_ & _ & _ & _ & Hlen).
    assert (Hrun : MCMCSimulation.has_run self' = true)
      by (apply has_run_length; lia).
    split; [exact Hrun|]. intros g2. now apply generate_after_run.
  - exact Hfresh.
  - intros g.
    destruct (generate (MCMCSimulation.reset self) g) as [[[e|c] self'] g'] eqn:Hgen.
    + destruct (generate_raises _ _ _ _ _ Hgen) as (Hrun & _). congruence.
    + destruct (generate_returns _ _ _ _ _ Hgen) as (_ & -> & _ & _ & Hlen).
      exists self', g'. split; [reflexivity|].
      rewrite Hlen, Hlen1. reflexivity.
Qed.

(** C5: on a simulation that has not reached [Completed], both
    [acceptance_rate] and [expected_squared_jump_distance] raise
    instead of returning a value. *)
Theorem diagnostics_need_completed_run st self :
  reachable st self ->
  st <> Completed ->
  MCMCSimulation.acceptance_rate self = inl MCMCSimulation.not_run_yet /\
  MCMCSimulation.expected_squared_jump_distance self = inl MCMCSimulation.not_run_yet.
Proof.
  intros Hreach Hst.
  destruct (reachable_shaped _ _ Hreach) as (_ & _ & Hlen).
  assert (Hrun : MCMCSimulation.has_run self = false).
  { apply has_not_run_length. destruct st; [lia|contradiction|congruence]. }
  unfold MCMCSimulation.acceptance_rate, MCMCSimulation.expected_squared_jump_distance.
  rewrite Hrun. auto.
Qed.
(** C1, as the code has it: on a completed simulation
    [expected_squared_jump_distance] returns the mean of the squared
    jumps between consecutive states of [chain[burn_in:]], the state at
    the burn-in index included.  That slice always has at least two
    states, so the mean is taken over [num_iterations - burn_in >= 1]
    jumps; for [burn_in = num_iterations - 1] it holds the last two
    states and the single jump of the last step. *)
Theorem esjd_of_completed_run self :
  reachable Completed self ->
  0 < MCMCSimulation.num_iterations self ->
  let post := skipn (Z.to_nat (MCMCSimulation.burn_in self)) (chain_of self) in
  MCMCSimulation.expected_squared_jump_distance self
  = inr (np_mean (squared_jumps post)) /\
  Z.of_nat (length (squared_jumps post))
  = MCMCSimulation.num_iterations self - MCMCSimulation.burn_in self /\
  (1 <= length (squared_jumps post))%nat /\
  (MCMCSimulation.burn_in self = MCMCSimulation.num_iterations self - 1 ->
   exists x y, post = [x; y] /\ squared_jumps post = [squared_jump x y]).
Proof.
  intros Hreach Hn post.
  destruct (reachable_shaped _ _ Hreach) as (H0 & H1 & Hlen).
  specialize (H1 Hn).
  assert (Hpost : length post
                  = (2 + Z.to_nat (MCMCSimulation.num_iterations self - 1
                                   - MCMCSimulation.burn_in self))%nat).
  { unfold post. rewrite length_skipn, Hlen. lia. }
  assert (Hjumps : Z.of_nat (length (squared_jumps post))
                   = MCMCSimulation.num_iterations self - MCMCSimulation.burn_in self).
  { rewrite squared_jumps_length, Hpost. lia. }
  split; [|split; [exact Hjumps|split; [lia|]]].
  - unfold MCMCSimulation.expected_squared_jump_distance.
    assert (Hrun : MCMCSimulation.has_run self = true)
      by (apply has_run_length; lia).
    rewrite Hrun. simpl negb. cbv iota zeta.
    destruct (0 <? MCMCSimulation.burn_in self) eqn:Hpos.
    + assert (Hlong : (MCMCSimulation.burn_in self + 1
                       <? Z.of_nat (length (chain_of self))) = true)
        by (apply Z.ltb_lt; lia).
      rewrite Hlong. reflexivity.
    + apply Z.ltb_ge in Hpos.
      assert (Hzero : MCMCSimulation.burn_in self = 0) by lia.
      simpl andb. cbv iota. unfold post. rewrite Hzero. reflexivity.
  - intros Hlast.
    assert (Htwo : length post = 2%nat) by lia.
    destruct post as [|x [|y [|z r]]]; try discriminate.
    exists x, y. split; reflexivity.
Qed.

(** C2, as the code has it: with a seed other than [0], two runs of the
    same configuration produce the same chain whatever the state of the
    process-wide generator before each of them.  The algorithm object
    is built before the generator is seeded, so its constructor has to
    build the same object in both runs; the constructor modelled from
    the specification does, for it draws nothing. *)
Theorem seeded_runs_reproducible
    (cls : Z -> Q -> option TargetDistribution -> bool ->
           option (list Q) -> option Q -> G -> (exn + MHAlgorithm.t) * G)
    d sigma n target seed b g1 g2 :
  seed <> 0 ->
  fst (cls d sigma target true None None g1) = fst (cls d sigma target true None None g2) ->
  run_once G np_random_seed sample accepts cls d sigma n target (Some seed) b g1
  = run_once G np_random_seed sample accepts cls d sigma n target (Some seed) b g2.
Proof.
  intros Hseed Hcls. apply Z.eqb_neq in Hseed.
  unfold run_once, MCMCSimulation.init.
  destruct (cls d sigma target true None None g1) as [[e1|a1] h1];
    destruct (cls d sigma target true None None g2) as [[e2|a2] h2];
    simpl in Hcls; try discriminate Hcls; injection Hcls as ->.
  - reflexivity.
  - rewrite Hseed. destruct (np_random_seed seed); reflexivity.
Qed.

(** C4, as the code has it: construction does not look at the sign of
    [num_iterations].  With a non-positive count, and a seed that
    [np.random.seed] takes when it is consulted, construction returns a
    simulation holding the count as given and burn-in [0];
    [generate_samples] on it performs no step and returns the chain of
    the initial state alone, and [has_run] stays false. *)
Theorem init_accepts_any_iteration_count d sigma n target sym seed bl sw b g :
  n <= 0 ->
  (forall s, seed = Some s -> s <> 0 -> exists seeded, np_random_seed s = inr seeded) ->
  exists self g',
    MCMCSimulation.init G np_random_seed d sigma n (MHAlgorithm.new G initial_state)
      target sym seed bl sw b g = (inr self, g') /\
    MCMCSimulation.num_iterations self = n /\
    MCMCSimulation.burn_in self = 0 /\
    MCMCSimulation.has_run self = false /\
    forall g2, generate self g2 = (inr [initial_state d], self, g2).
Proof.
  intros Hn Hseed.
  assert (Hb : Z.max 0 (Z.min b (n - 1)) = 0) by lia.
  assert (Hk : Z.to_nat n = 0%nat) by lia.
  unfold MCMCSimulation.init, MHAlgorithm.new. rewrite Hb.
  destruct seed as [s|]; [destruct (s =? 0) eqn:Hs|].
  2: { apply Z.eqb_neq in Hs. destruct (Hseed s eq_refl Hs) as [seeded ->].
       eexists _, _. split; [reflexivity|]. repeat split.
       intros g2. unfold MCMCSimulation.generate_samples. simpl. rewrite Hk.
       reflexivity. }
  all: eexists _, _.
  all: split; [reflexivity|]; repeat split.
  all: intros g2; unfold MCMCSimulation.generate_samples; simpl; rewrite Hk.
  all: reflexivity.
Qed.
End Runs.

(** ** The maximum of a series and its first index *)

Lemma argmax_from_spec (l : list Q) : forall (pre : list Q) (best : nat) (m : Q),
  pre !! best = Some m ->
  (forall x, x ∈ pre -> (x <= m)%Q) ->
  (forall j x, (j < best)%nat -> pre !! j = Some x -> (x < m)%Q) ->
  let k := argmax_from l (length pre) best m in
  let v := fold_left (fun m y => if Qle_bool y m then m else y) l m in
  (pre ++ l) !! k = Some v /\
  (forall x, x ∈ pre ++ l -> (x <= v)%Q) /\
  (forall j x, (j < k)%nat -> (pre ++ l) !! j = Some x -> (x < v)%Q).
Proof.
  induction l as [|y r IH]; intros pre best m Hbest Hmax Hfirst; simpl.
  - rewrite app_nil_r. auto.
  - assert (Hlt : (best < length pre)%nat) by (eapply lookup_lt_Some; eauto).
    replace (pre ++ y :: r) with ((pre ++ [y]) ++ r) by (now rewrite <- app_assoc).
    replace (S (length pre)) with (length (pre ++ [y]))
      by (rewrite length_app; simpl; lia).
    destruct (Qle_bool y m) eqn:Hle.
    + apply Qle_bool_iff in Hle. apply IH.
      * rewrite lookup_app_l; auto.
      * intros x [Hx|Hx%list_elem_of_singleton]%elem_of_app; [auto|now subst].
      * intros j x Hj Hjx. apply (Hfirst j x Hj).
        rewrite lookup_app_l in Hjx; [exact Hjx|lia].
    + assert (Hgt : (m < y)%Q).
      { apply Qnot_le_lt. intros H. apply Qle_bool_iff in H. congruence. }
      apply IH.
      * apply list_lookup_middle. reflexivity.
      * intros x [Hx|Hx%list_elem_of_singleton]%elem_of_app.
        -- apply Qlt_le_weak. eapply Qle_lt_trans; [apply Hmax, Hx|exact Hgt].
        -- subst. apply Qle_refl.
      * intros j x Hj Hjx. rewrite lookup_app_l in Hjx by exact Hj.
        eapply Qle_lt_trans; [|exact Hgt].
        apply Hmax. eapply list_elem_of_lookup_2; eauto.
Qed.

(** [max] and [np.argmax] agree: the value [max] returns stands at the
    index [np.argmax] returns, bounds every element of the list, and is
    not reached at any earlier index. *)
Lemma py_max_at_argmax (l : list Q) (m : Q) (k : nat) :
  py_max l = inr m -> np_argmax l = inr k ->
  l !! k = Some m /\
  (forall x, x ∈ l -> (x <= m)%Q) /\
  (forall j x, (j < k)%nat -> l !! j = Some x -> (x < m)%Q).
Proof.
  destruct l as [|x r]; simpl; [discriminate|].
  intros [= <-] [= <-].
  apply (argmax_from_spec r [x] 0%nat x).
  - reflexivity.
  - intros y ->%list_elem_of_singleton. apply Qle_refl.
  - intros j y Hj. lia.
Qed.

(** ** The sweep *)

Lemma string_eqb_neq (a b : string) : a <> b -> String.eqb a b = false.
Proof. intros H. now apply String.eqb_neq. Qed.

Lemma np_linspace_40_nonempty (start stop : Q) :
  exists x rest, np_linspace start stop 40 = x :: rest.
Proof. unfold np_linspace. simpl. eauto. Qed.

Lemma proposal_config_unknown name scale d params :
  ~ In name proposal_names ->
  proposal_config_for name scale d params
  = inl (ValueError ("Unknown proposal name: " +:+ name)).
Proof.
  intros H. unfold proposal_config_for.
  rewrite !string_eqb_neq; [reflexivity|..];
    intros ->; apply H; simpl; tauto.
Qed.

Lemma proposal_config_known name scale d params cfg :
  proposal_config_for name scale d params = inr cfg -> In name proposal_names.
Proof.
  unfold proposal_config_for.
  destruct (String.eqb_spec name "Normal") as [->|_]; [simpl; tauto|].
  destruct (String.eqb_spec name "Laplace") as [->|_]; [simpl; tauto|].
  destruct (String.eqb_spec name "UniformRadius") as [->|_]; [simpl; tauto|].
  discriminate.
Qed.

Section SweepFacts.
Variable G : Type.
Variable super_funnel_data : PyVal -> PyVal -> PyVal -> exn + (list PyVal * list PyVal).
Variable simulate : Z -> ProposalConfig -> Z -> TargetDistribution -> Z -> Z ->
                    G -> (exn + SimResult) * G.

Lemma get_target_unknown name dim kwargs :
  ~ In name torch_targets ->
  get_target_distribution super_funnel_data name dim true kwargs = inl unknown_target.
Proof.
  intros H. unfold get_target_distribution. cbv zeta.
  rewrite !string_eqb_neq; [reflexivity|..];
    intros ->; apply H; simpl; tauto.
Qed.

Lemma actual_dimension_plain name dim kwargs :
  name <> "HybridRosenbrock" -> name <> "SuperFunnel" ->
  actual_dimension name dim kwargs = inr dim.
Proof.
  intros H1 H2. unfold actual_dimension.
  now rewrite !string_eqb_neq.
Qed.

(** A sweep that returns has appended one acceptance rate and one jump
    distance per grid point, in grid order. *)
Lemma sweep_returns pn d n target seed b params (grid : list Q) :
  forall accs es g accs' es' g',
  sweep G simulate pn d n target seed b params grid accs es g = (inr (accs', es'), g') ->
  exists rs,
    Forall2 (observed G simulate pn d n target seed b params) grid rs /\
    accs' = accs ++ map run_acceptance_rate rs /\
    es' = es ++ map run_esjd rs.
Proof.
  induction grid as [|scale rest IH]; intros accs es g accs' es' g'; simpl.
  - intros [= <- <- <-]. exists []. rewrite !app_nil_r. auto.
  - destruct (proposal_config_for pn scale d params) as [e|cfg] eqn:Hcfg; [discriminate|].
    destruct (simulate d cfg n target seed b g) as [[e|r] g1] eqn:Hsim; [discriminate|].
    intros Hrest. destruct (IH _ _ _ _ _ _ Hrest) as (rs & Hobs & -> & ->).
    exists (r :: rs). split; [|split].
    + constructor; [|exact Hobs]. exists cfg, g, g1. auto.
    + rewrite <- app_assoc. reflexivity.
    + rewrite <- app_assoc. reflexivity.
Qed.

(** An unknown proposal name stops the sweep at the first grid point,
    before any simulation. *)
Lemma sweep_unknown_proposal pn d n target seed b params scale rest accs es g :
  ~ In pn proposal_names ->
  sweep G simulate pn d n target seed b params (scale :: rest) accs es g
  = (inl (ValueError ("Unknown proposal name: " +:+ pn)), g).
Proof. intros H. simpl. now rewrite proposal_config_unknown. Qed.

Lemma lookup_map {A B} (f : A -> B) (l : list A) (i : nat) :
  map f l !! i = option_map f (l !! i).
Proof.
  revert i. induction l as [|x l IH]; intros [|i]; simpl; auto.
Qed.

Local Abbreviation study := (run_study G super_funnel_data simulate).

(** What a sweep that returns has computed and written. *)
Lemma run_study_returns dim tn n vmax seed b pn params kwargs (w : World G) data w' :
  study dim tn n vmax seed b pn params kwargs w = (inr data, w') ->
  exists target g1,
    actual_dimension tn dim kwargs = inr (SweepData.dimension data) /\
    get_target_distribution super_funnel_data tn dim true kwargs = inr target /\
    SweepData.scale_param_range data = np_linspace (1#100) vmax 40 /\
    sweep G simulate pn (SweepData.dimension data) n target seed b params
      (SweepData.scale_param_range data) [] [] (generator G w)
    = (inr (SweepData.acceptance_rates data,
            SweepData.expected_squared_jump_distances data), g1) /\
    py_max (SweepData.expected_squared_jump_distances data)
    = inr (SweepData.max_esjd data) /\
    (exists i,
       np_argmax (SweepData.expected_squared_jump_distances data) = inr i /\
       SweepData.acceptance_rates data !! i = Some (SweepData.max_acceptance_rate data) /\
       SweepData.scale_param_range data !! i = Some (SweepData.max_scale_param data)) /\
    ResultsFile ("data/" +:+ run_label tn pn (SweepData.dimension data) n seed +:+ ".json")
      data ∈ outputs G w'.
Proof.
  unfold run_study. cbv zeta.
  destruct (actual_dimension tn dim kwargs) as [e|d] eqn:Hd; [discriminate|].
  destruct (get_target_distribution _ tn dim true kwargs) as [e|target] eqn:Ht;
    [discriminate|].
  destruct (sweep _ _ _ _ _ _ _ _ _ _ _ _ _) as [[e|[accs es]] g1] eqn:Hsweep;
    [discriminate|].
  destruct (py_max es) as [e|m] eqn:Hmax; [discriminate|].
  destruct (np_argmax es) as [e|i] eqn:Harg; [discriminate|].
  destruct (accs !! i) as [ma|] eqn:Hacc; [|discriminate].
  destruct (np_linspace (1#100) vmax 40 !! i) as [ms|] eqn:Hscale; [|discriminate].
  destruct (proposal_config_for pn ms d params) as [e|cfg]; [discriminate|].
  destruct (simulate d cfg n target seed b g1) as [[e|r] g2]; [discriminate|].
  intros [= <- <-]. simpl.
  exists target, g1. repeat split; auto.
  - exists i. auto.
  - apply elem_of_app. left. apply elem_of_app. right. apply list_elem_of_singleton.
    reflexivity.
Qed.

(** C7: for a target name or a proposal name outside the supported
    catalogue the sweep raises at once, before any simulation, and
    leaves the files as they were: no results file is written.  The
    exception is the [ValueError] for the unknown target, or, when the
    target is built, the [ValueError] for the unknown proposal. *)
Theorem unknown_names_fail_before_output dim tn n vmax seed b pn params kwargs
    (w : World G) :
  ~ In tn torch_targets \/ ~ In pn proposal_names ->
  exists e,
    study dim tn n vmax seed b pn params kwargs w = (inl e, w) /\
    (~ In tn torch_targets -> e = unknown_target) /\
    (forall d target,
       actual_dimension tn dim kwargs = inr d ->
       get_target_distribution super_funnel_data tn dim true kwargs = inr target ->
       e = ValueError ("Unknown proposal name: " +:+ pn)).
Proof.
  intros H. unfold run_study. cbv zeta.
  destruct (actual_dimension tn dim kwargs) as [e|d] eqn:Hd.
  - exists e. split; [reflexivity|]. split.
    + intros Hn. rewrite actual_dimension_plain in Hd; [discriminate|..];
        intros ->; apply Hn; simpl; tauto.
    + intros d target [=].
  - destruct (get_target_distribution _ tn dim true kwargs) as [e|target] eqn:Ht.
    + exists e. split; [reflexivity|]. split.
      * intros Hn. rewrite get_target_unknown in Ht by exact Hn. congruence.
      * intros d' target _ [=].
    + assert (Hin : In tn torch_targets).
      { destruct (in_dec string_dec tn torch_targets) as [Hin|Hn]; [exact Hin|].
        rewrite get_target_unknown in Ht by exact Hn. discriminate. }
      destruct H as [H|H]; [contradiction|].
      destruct (np_linspace_40_nonempty (1#100) vmax) as (x & rest & ->).
      rewrite sweep_unknown_proposal by exact H.
      exists (ValueError ("Unknown proposal name: " +:+ pn)).
      destruct w as [g outs]. simpl. split; [reflexivity|]. split.
      * intros Hn. contradiction.
      * reflexivity.
Qed.

(** C8: a sweep that completes has selected the grid point of largest
    ESJD.  With [rs] the simulations of the grid points in grid order,
    the two persisted series are their diagnostics, and there is a grid
    index [i] such that the persisted [max_esjd] and
    [max_acceptance_rate] are the ESJD and the acceptance rate of the
    simulation at [i], [max_scale_param] is the scale parameter at [i],
    [max_esjd] is the maximum of the ESJD series and [i] is the first
    index where it is attained; the record is in the results file. *)
Theorem run_study_selects_max_esjd dim tn n vmax seed b pn params kwargs
    (w : World G) data w' :
  study dim tn n vmax seed b pn params kwargs w = (inr data, w') ->
  exists target rs i r,
    Forall2 (observed G simulate pn (SweepData.dimension data) n target seed b params)
      (SweepData.scale_param_range data) rs /\
    SweepData.expected_squared_jump_distances data = map run_esjd rs /\
    SweepData.acceptance_rates data = map run_acceptance_rate rs /\
    np_argmax (SweepData.expected_squared_jump_distances data) = inr i /\
    rs !! i = Some r /\
    SweepData.max_esjd data = run_esjd r /\
    SweepData.max_acceptance_rate data = run_acceptance_rate r /\
    SweepData.scale_param_range data !! i = Some (SweepData.max_scale_param data) /\
    (forall x, x ∈ SweepData.expected_squared_jump_distances data ->
               (x <= SweepData.max_esjd data)%Q) /\
    (forall j x, (j < i)%nat ->
                 SweepData.expected_squared_jump_distances data !! j = Some x ->
                 (x < SweepData.max_esjd data)%Q) /\
    ResultsFile ("data/" +:+ run_label tn pn (SweepData.dimension data) n seed +:+ ".json")
      data ∈ outputs G w'.
Proof.
  intros Hrun.
  destruct (run_study_returns _ _ _ _ _ _ _ _ _ _ _ _ Hrun)
    as (target & g1 & _ & _ & _ & Hsweep & Hmax & (i & Harg & Hacc & Hscale) & Hfile).
  destruct (sweep_returns _ _ _ _ _ _ _ _ _ _ _ _ _ _ Hsweep) as (rs & Hobs & Haccs & Hes).
  simpl in Haccs, Hes.
  destruct (py_max_at_argmax _ _ _ Hmax Harg) as (Hat & Hbound & Hfirst).
  rewrite Hes, lookup_map in Hat. rewrite Haccs, lookup_map in Hacc.
  destruct (rs !! i) as [r|] eqn:Hr; [|discriminate].
  injection Hat as Hat. injection Hacc as Hacc.
  exists target, rs, i, r. repeat split; auto.
Qed.

(** C9: for positive integers [n1] and [n2] the dimension computed for
    the HybridRosenbrock target is [1 + n2 * (n1 - 1)], at least [1];
    it is the dimension the sweep works with and persists, whatever
    [dim] was passed; for [n1 = 3] and [n2 = 5], which are also the
    defaults, it is [11]. *)
Theorem hybrid_rosenbrock_dimension n1 n2 :
  0 < n1 -> 0 < n2 ->
  calculate_hybrid_rosenbrock_dim n1 n2 = 1 + n2 * (n1 - 1) /\
  1 <= calculate_hybrid_rosenbrock_dim n1 n2 /\
  calculate_hybrid_rosenbrock_dim 3 5 = 11 /\
  (forall dim, actual_dimension "HybridRosenbrock" dim ∅ = inr 11) /\
  (forall dim kwargs,
     kwargs !! "n1" = Some (PyInt n1) -> kwargs !! "n2" = Some (PyInt n2) ->
     actual_dimension "HybridRosenbrock" dim kwargs = inr (1 + n2 * (n1 - 1))) /\
  (forall dim n vmax seed b pn params kwargs (w : World G) data w',
     kwargs !! "n1" = Some (PyInt n1) -> kwargs !! "n2" = Some (PyInt n2) ->
     study dim "HybridRosenbrock" n vmax seed b pn params kwargs w = (inr data, w') ->
     SweepData.dimension data = 1 + n2 * (n1 - 1)).
Proof.
  intros H1 H2.
  assert (Hdim : forall dim kwargs,
            kwargs !! "n1" = Some (PyInt n1) -> kwargs !! "n2" = Some (PyInt n2) ->
            actual_dimension "HybridRosenbrock" dim kwargs = inr (1 + n2 * (n1 - 1))).
  { intros dim kwargs Hn1 Hn2. unfold actual_dimension, kwargs_get.
    rewrite Hn1, Hn2. reflexivity. }
  unfold calculate_hybrid_rosenbrock_dim.
  split; [reflexivity|]. split; [nia|]. split; [reflexivity|].
  split; [reflexivity|]. split; [exact Hdim|].
  intros dim n vmax seed b pn params kwargs w data w' Hn1 Hn2 Hrun.
  destruct (run_study_returns _ _ _ _ _ _ _ _ _ _ _ _ Hrun) as (_ & _ & Hd & _).
  rewrite (Hdim dim kwargs Hn1 Hn2) in Hd. congruence.
Qed.
End SweepFacts.

(** ** The properties on the concrete instance *)

Local Abbreviation lcg_reaches :=
  (reaches Lcg.G Lcg.np_random_seed Lcg.initial_state Lcg.sample Lcg.accepts).
Local Abbreviation lcg_init :=
  (MCMCSimulation.init Lcg.G Lcg.np_random_seed).
Local Abbreviation lcg_new := (MHAlgorithm.new Lcg.G Lcg.initial_state).
Local Abbreviation lcg_generate :=
  (MCMCSimulation.generate_samples Lcg.G Lcg.sample Lcg.accepts).
Local Abbreviation lcg_run :=
  (run_once Lcg.G Lcg.np_random_seed Lcg.sample Lcg.accepts
     (MHAlgorithm.new Lcg.G Lcg.initial_state)).
Local Abbreviation lcg_study :=
  (run_study Lcg.G Lcg.super_funnel_data Lcg.simulate).

Lemma lcg_constructed_reaches (n b : Z) : lcg_reaches Initialized (Lcg.constructed n b).
Proof.
  apply (reaches_init Lcg.G Lcg.np_random_seed Lcg.initial_state Lcg.sample Lcg.accepts
           1 1%Q n None true None None None b 0 (Lcg.constructed n b) 0).
  reflexivity.
Qed.

Lemma lcg_completed_reaches (n b : Z) (g : Lcg.G) :
  lcg_reaches Completed (Lcg.completed n b g).
Proof.
  unfold Lcg.completed.
  destruct (lcg_generate (Lcg.constructed n b) g) as [[[e|c] self'] g'] eqn:Hgen.
  - apply generate_raises in Hgen. destruct Hgen as (Hrun & _). discriminate.
  - eapply reaches_run; [apply lcg_constructed_reaches|exact Hgen].
Qed.

(** The run of two iterations with burn-in 1 used below: the first
    candidate is rejected, the second one moves by -1. *)
Example lcg_completed_chain :
  MHAlgorithm.chain (MCMCSimulation.algorithm (Lcg.completed 2 1 1))
  = [[0%Q]; [0%Q]; [(-1)%Q]].
Proof. reflexivity. Qed.

(** C1, the claim as stated fails: a completed run of two iterations
    with burn-in [1 = num_iterations - 1] whose last step moves by -1.
    The code answers the squared length [1] of that step; the mean over
    the states strictly after the burn-in index has fewer than two
    states to work with and is [0]. *)
Lemma esjd_counts_the_last_step :
  lcg_reaches Completed (Lcg.completed 2 1 1) /\
  MCMCSimulation.burn_in (Lcg.completed 2 1 1)
  >= MCMCSimulation.num_iterations (Lcg.completed 2 1 1) - 1 /\
  MCMCSimulation.expected_squared_jump_distance (Lcg.completed 2 1 1) = inr 1%Q /\
  esjd_strictly_after_burn_in (Lcg.completed 2 1 1) = 0%Q /\
  ~ (1 == 0)%Q.
Proof.
  split; [apply lcg_completed_reaches|].
  split; [vm_compute; discriminate|].
  split; [reflexivity|]. split; [reflexivity|].
  intros H. discriminate H.
Qed.

Lemma esjd_of_completed_run_witness :
  MCMCSimulation.expected_squared_jump_distance (Lcg.completed 3 1 3)
  = inr (np_mean (squared_jumps [[(-1)%Q]; [(-1)%Q]; [(-1)%Q]])) /\
  (1 <= length (squared_jumps [[(-1)%Q]; [(-1)%Q]; [(-1)%Q]]))%nat.
Proof.
  pose proof (esjd_of_completed_run Lcg.G Lcg.np_random_seed Lcg.initial_state
                Lcg.sample Lcg.accepts (Lcg.completed 3 1 3)
                (lcg_completed_reaches 3 1 3) eq_refl) as (H1 & _ & H3 & _).
  split; [exact H1|exact H3].
Defined.

(** C2, the claim as stated fails: the same configuration without a
    seed, run once with the process-wide generator in state 1 and once
    in state 2, gives two different chains. *)
Lemma unseeded_runs_differ :
  lcg_run 1 1%Q 2 None None 1 1 = inr [[0%Q]; [0%Q]; [(-1)%Q]] /\
  lcg_run 1 1%Q 2 None None 1 2 = inr [[0%Q]; [1%Q]; [1%Q]] /\
  lcg_run 1 1%Q 2 None None 1 1 <> lcg_run 1 1%Q 2 None None 1 2.
Proof.
  split; [reflexivity|]. split; [reflexivity|].
  vm_compute. discriminate.
Qed.

Lemma seeded_runs_reproducible_witness :
  7 <> 0 /\
  lcg_run 1 1%Q 2 None (Some 7) 1 1 = lcg_run 1 1%Q 2 None (Some 7) 1 2.
Proof.
  assert (H : 7 <> 0) by lia.
  split; [exact H|].
  exact (seeded_runs_reproducible Lcg.G Lcg.np_random_seed Lcg.sample Lcg.accepts
           (MHAlgorithm.new Lcg.G Lcg.initial_state) 1 1%Q 2 None 7 1 1 2 H eq_refl).
Defined.

Lemma generate_samples_needs_reset_witness :
  lcg_reaches Completed (Lcg.completed 2 1 1) /\
  MCMCSimulation.has_run (MCMCSimulation.reset (Lcg.completed 2 1 1)) = false /\
  forall g,
    lcg_generate (Lcg.completed 2 1 1) g
    = (inl MCMCSimulation.reset_first, Lcg.completed 2 1 1, g).
Proof.
  pose proof (lcg_completed_reaches 2 1 1) as Hreach.
  destruct (generate_samples_needs_reset Lcg.G Lcg.np_random_seed Lcg.initial_state
              Lcg.sample Lcg.accepts Completed (Lcg.completed 2 1 1) Hreach)
    as (Hraise & _ & Hfresh & _).
  split; [exact Hreach|]. split; [exact Hfresh|].
  intros g. apply Hraise. reflexivity.
Defined.

(** C4, the claim as stated fails: construction with
    [num_iterations = 0] raises nothing and returns a simulation. *)
Lemma init_accepts_zero_iterations :
  0 <= 0 /\
  lcg_init 1 1%Q 0 lcg_new None true (Some 42) None None 0 7
  = (inr (Lcg.constructed 0 0), 42).
Proof. split; [lia|reflexivity]. Qed.

Lemma init_accepts_any_iteration_count_witness :
  exists self g',
    lcg_init 1 1%Q (-3) lcg_new None true None None None 5 7 = (inr self, g') /\
    MCMCSimulation.num_iterations self = -3 /\
    MCMCSimulation.burn_in self = 0 /\
    MCMCSimulation.has_run self = false /\
    forall g2, lcg_generate self g2 = (inr [Lcg.initial_state 1], self, g2).
Proof.
  apply (init_accepts_any_iteration_count Lcg.G Lcg.np_random_seed Lcg.initial_state
           Lcg.sample Lcg.accepts 1 1%Q (-3) None true None None None 5 7).
  - lia.
  - intros s Hs. discriminate Hs.
Defined.

Lemma diagnostics_need_completed_run_witness :
  Initialized <> Completed /\
  MCMCSimulation.acceptance_rate (Lcg.constructed 2 1) = inl MCMCSimulation.not_run_yet /\
  MCMCSimulation.expected_squared_jump_distance (Lcg.constructed 2 1)
  = inl MCMCSimulation.not_run_yet.
Proof.
  assert (H : Initialized <> Completed) by discriminate.
  split; [exact H|].
  exact (diagnostics_need_completed_run Lcg.G Lcg.np_random_seed Lcg.initial_state
           Lcg.sample Lcg.accepts Initialized (Lcg.constructed 2 1)
           (lcg_constructed_reaches 2 1) H).
Defined.


(** A world in which nothing has been written yet. *)
Local Abbreviation lcg_world := ({| generator := 1; outputs := [] |} : World Lcg.G).

Lemma unknown_names_fail_before_output_witness :
  (~ In "Cauchy" torch_targets \/ ~ In "Normal" proposal_names) /\
  exists e,
    lcg_study 2 "Cauchy" 100 (7#2)%Q 42 10 "Normal" None ∅ lcg_world
    = (inl e, lcg_world) /\
    e = unknown_target.
Proof.
  assert (Hn : ~ In "Cauchy" torch_targets) by (simpl; intuition discriminate).
  split; [left; exact Hn|].
  destruct (unknown_names_fail_before_output Lcg.G Lcg.super_funnel_data Lcg.simulate
              2 "Cauchy" 100 (7#2)%Q 42 10 "Normal" None ∅ lcg_world (or_introl Hn))
    as (e & Hrun & Htarget & _).
  exists e. split; [exact Hrun|exact (Htarget Hn)].
Defined.

Lemma run_study_selects_max_esjd_witness :
  exists data w',
    lcg_study 2 "MultivariateNormal" 100 (7#2)%Q 42 10 "Normal" None ∅ lcg_world
    = (inr data, w') /\
    exists i,
      np_argmax (SweepData.expected_squared_jump_distances data) = inr i /\
      SweepData.scale_param_range data !! i = Some (SweepData.max_scale_param data) /\
      forall x, x ∈ SweepData.expected_squared_jump_distances data ->
                (x <= SweepData.max_esjd data)%Q.
Proof.
  destruct (lcg_study 2 "MultivariateNormal" 100 (7#2)%Q 42 10 "Normal" None ∅ lcg_world)
    as [[e|data] w'] eqn:Hrun.
  - vm_compute in Hrun. discriminate Hrun.
  - exists data, w'. split; [reflexivity|].
    destruct (run_study_selects_max_esjd Lcg.G Lcg.super_funnel_data Lcg.simulate
                _ _ _ _ _ _ _ _ _ _ _ _ Hrun)
      as (target & rs & i & r & _ & _ & _ & Harg & _ & _ & _ & Hscale & Hbound & _).
    exists i. split; [exact Harg|]. split; [exact Hscale|exact Hbound].
Defined.

Lemma hybrid_rosenbrock_dimension_witness :
  0 < 3 /\ 0 < 5 /\
  calculate_hybrid_rosenbrock_dim 3 5 = 1 + 5 * (3 - 1) /\
  actual_dimension "HybridRosenbrock" 20 (<["n1" := PyInt 3]> (<["n2" := PyInt 5]> ∅))
  = inr 11.
Proof.
  assert (H1 : 0 < 3) by lia. assert (H2 : 0 < 5) by lia.
  destruct (hybrid_rosenbrock_dimension Lcg.G Lcg.super_funnel_data Lcg.simulate 3 5 H1 H2)
    as (Hcalc & _ & _ & _ & Hdim & _).
  split; [exact H1|]. split; [exact H2|]. split; [exact Hcalc|].
  apply Hdim; reflexivity.
Defined.

(** * Further properties *)

(** ** The jump distance as a number *)

Lemma fold_sum_shift (l : list Q) : forall a : Q,
  (fold_left Qplus l a == a + np_sum l)%Q.
Proof.
  unfold np_sum. induction l as [|x l IH]; intros a; simpl.
  - ring.
  - rewrite (IH (a + x)%Q), (IH (0 + x)%Q). ring.
Qed.

Lemma np_sum_cons (x : Q) (l : list Q) : (np_sum (x :: l) == x + np_sum l)%Q.
Proof. unfold np_sum at 1. simpl. rewrite fold_sum_shift. ring. Qed.

Lemma np_sum_nonneg (l : list Q) :
  Forall (fun q => (0 <= q)%Q) l -> (0 <= np_sum l)%Q.
Proof.
  induction 1 as [|x l Hx _ IH].
  - apply Qle_refl.
  - rewrite np_sum_cons. lra.
Qed.



Lemma squares_nonneg (p : Point) :
  Forall (fun q => (0 <= q)%Q) (map (fun d => (d ^ 2)%Q) p).
Proof. apply Forall_map, Forall_forall. intros d _. simpl. nra. Qed.

Lemma squared_jumps_nonneg (c : list Point) :
  Forall (fun q => (0 <= q)%Q) (squared_jumps c).
Proof.
  unfold squared_jumps. apply Forall_map, Forall_forall. intros ab _.
  apply np_sum_nonneg, squares_nonneg.
Qed.



Lemma count_positive (l : list Q) :
  l <> [] -> (0 < inject_Z (Z.of_nat (length l)))%Q.
Proof.
  intros H. change 0%Q with (inject_Z 0). rewrite <- Zlt_Qlt.
  destruct l; [contradiction|simpl; lia].
Qed.

Lemma np_mean_nonneg (l : list Q) :
  Forall (fun q => (0 <= q)%Q) l -> (0 <= np_mean l)%Q.
Proof.
  intros H. unfold np_mean. destruct l as [|x l].
  - unfold Qdiv. simpl. change (/ inject_Z 0)%Q with 0%Q.
    rewrite Qmult_0_r. apply Qle_refl.
  - apply Qle_shift_div_l; [now apply count_positive|].
    rewrite Qmult_0_l. now apply np_sum_nonneg.
Qed.


(** X1: whenever [expected_squared_jump_distance] returns a value, the
    value is not negative. *)
Theorem esjd_nonnegative (self : MCMCSimulation.t) (v : Q) :
  MCMCSimulation.expected_squared_jump_distance self = inr v -> (0 <= v)%Q.
Proof.
  unfold MCMCSimulation.expected_squared_jump_distance.
  destruct (negb (MCMCSimulation.has_run self)); [discriminate|]. cbv zeta.
  destruct (_ && _).
  - intros [= <-]. apply np_mean_nonneg, squared_jumps_nonneg.
  - destruct (_ =? 0).
    + intros [= <-]. apply np_mean_nonneg, squared_jumps_nonneg.
    + intros [= <-]. apply Qle_refl.
Qed.


(** X3: on a simulation that has run, a negative stored burn-in, or a
    positive one that leaves fewer than two states of the chain, makes
    [expected_squared_jump_distance] return [0.0]. *)
Theorem esjd_zero_without_two_states (self : MCMCSimulation.t) :
  MCMCSimulation.has_run self = true ->
  MCMCSimulation.burn_in self < 0 \/
  Z.of_nat (length (MHAlgorithm.chain (MCMCSimulation.algorithm self)))
  <= MCMCSimulation.burn_in self + 1 ->
  MCMCSimulation.expected_squared_jump_distance self = inr 0%Q.
Proof.
  intros Hrun Hshort.
  assert (Hlen : (1 < length (MHAlgorithm.chain (MCMCSimulation.algorithm self)))%nat)
    by (apply Nat.ltb_lt; exact Hrun).
  unfold MCMCSimulation.expected_squared_jump_distance.
  rewrite Hrun. simpl negb. cbv iota zeta.
  replace (_ && _) with false
    by (symmetry; apply andb_false_iff; rewrite Z.ltb_ge, Z.ltb_ge; lia).
  replace (_ =? 0) with false by (symmetry; apply Z.eqb_neq; lia).
  reflexivity.
Qed.

(** ** Construction and degenerate runs *)

Section MoreRuns.
Variable G : Type.
Variable np_random_seed : Z -> exn + G.
Variable initial_state : Z -> Point.
Variable sample : Q -> Point -> G -> Point * G.
Variable accepts : option TargetDistribution -> Point -> Point -> G -> bool * G.

Local Abbreviation generate := (MCMCSimulation.generate_samples G sample accepts).
Local Abbreviation reachable := (reaches G np_random_seed initial_state sample accepts).

(** X4: construction raises in two cases only: the algorithm's
    constructor raised, and then its exception is passed on; or the
    algorithm was built, the seed is neither [None] nor [0], and
    [np.random.seed] refused it.  In both cases the generator is left
    as the constructor left it, and neither [num_iterations] nor
    [burn_in] plays a part. *)
Theorem init_raises_iff d sigma n
    (cls : Z -> Q -> option TargetDistribution -> bool ->
           option (list Q) -> option Q -> G -> (exn + MHAlgorithm.t) * G)
    target sym seed bl sw b g e g' :
  MCMCSimulation.init G np_random_seed d sigma n cls target sym seed bl sw b g
  = (inl e, g')
  <-> cls d sigma target sym bl sw g = (inl e, g') \/
      exists a s, cls d sigma target sym bl sw g = (inr a, g') /\
                  seed = Some s /\ s <> 0 /\ np_random_seed s = inl e.
Proof.
  unfold MCMCSimulation.init.
  destruct (cls d sigma target sym bl sw g) as [[e1|a] g1].
  - split; [intros [= <- <-]; left; reflexivity|].
    intros [[= <- <-]|(a & s & H & _)]; [reflexivity|discriminate H].
  - split.
    + destruct seed as [s|]; [|discriminate].
      destruct (s =? 0) eqn:Hs; [discriminate|]. apply Z.eqb_neq in Hs.
      destruct (np_random_seed s) as [e2|g2] eqn:Hseed; [|discriminate].
      intros [= <- <-]. right. exists a, s. auto.
    + intros [H|(a' & s & H & -> & Hs & Hseed)]; [discriminate H|].
      injection H as <- <-. apply Z.eqb_neq in Hs. rewrite Hs, Hseed. reflexivity.
Qed.

(** X5: a simulation with a non-positive [num_iterations] never
    counts as run.  In every state [has_run] is false, and
    [generate_samples] may be called again and again without [reset]:
    it returns the unchanged chain and changes nothing. *)
Theorem zero_iteration_runs st self :
  reachable st self ->
  MCMCSimulation.num_iterations self <= 0 ->
  MCMCSimulation.has_run self = false /\
  length (MHAlgorithm.chain (MCMCSimulation.algorithm self)) = 1%nat /\
  forall g, generate self g
            = (inr (MHAlgorithm.chain (MCMCSimulation.algorithm self)), self, g).
Proof.
  intros Hreach Hn.
  destruct (reachable_shaped _ _ _ _ _ _ _ Hreach) as (_ & _ & Hlen).
  assert (Hone : length (MHAlgorithm.chain (MCMCSimulation.algorithm self)) = 1%nat).
  { destruct st; [exact Hlen|contradiction|].
    rewrite Hlen. replace (Z.to_nat _) with 0%nat by lia. reflexivity. }
  assert (Hrun : MCMCSimulation.has_run self = false).
  { unfold MCMCSimulation.has_run. rewrite Hone. reflexivity. }
  split; [exact Hrun|]. split; [exact Hone|].
  intros g. unfold MCMCSimulation.generate_samples. rewrite Hrun.
  replace (Z.to_nat _) with 0%nat by lia. simpl.
  destruct self. reflexivity.
Qed.

(** X6: on a simulation obtained through its interface each of the
    two diagnostics returns a value exactly when the simulation is
    [Completed] and [num_iterations] is positive; in every other case
    it raises. *)
Theorem diagnostics_return_iff st self :
  reachable st self ->
  ((exists r, MCMCSimulation.acceptance_rate self = inr r)
   <-> st = Completed /\ 0 < MCMCSimulation.num_iterations self) /\
  ((exists v, MCMCSimulation.expected_squared_jump_distance self = inr v)
   <-> st = Completed /\ 0 < MCMCSimulation.num_iterations self).
Proof.
  intros Hreach.
  destruct (reachable_shaped _ _ _ _ _ _ _ Hreach) as (H0 & _ & Hlen).
  assert (Hrun : MCMCSimulation.has_run self = true
                 <-> st = Completed /\ 0 < MCMCSimulation.num_iterations self).
  { rewrite has_run_length. destruct st; [|contradiction|].
    - rewrite Hlen. split; [lia|intros [[=] _]].
    - rewrite Hlen. split; [intros H; split; [reflexivity|lia]|intros [_ H]; lia]. }
  unfold MCMCSimulation.acceptance_rate, MCMCSimulation.expected_squared_jump_distance.
  destruct (MCMCSimulation.has_run self); simpl negb; cbv iota zeta.
  - split; (split; [intros _; now apply Hrun|intros _]).
    + eauto.
    + destruct (_ && _); [eauto|]. destruct (_ =? 0); eauto.
  - split; (split; [intros [? [=]]|intros H; apply Hrun in H; discriminate H]).
Qed.
End MoreRuns.

(** ** The catalogues of the sweep *)

(** Decide the comparisons of two literal names in the goal. *)
Ltac decide_names :=
  repeat match goal with
         | |- context [String.eqb ?a ?b] =>
             let v := eval vm_compute in (String.eqb a b) in
             change (String.eqb a b) with v; cbv iota
         end.

(** X9: [run_study] builds a proposal configuration exactly for the
    three names Normal, Laplace and UniformRadius.  An empty
    [proposal_params] dictionary counts as no dictionary, and the
    anisotropic vector is read for the Laplace proposal only. *)
Theorem proposal_catalogue pn scale d params :
  ((exists cfg, proposal_config_for pn scale d params = inr cfg)
   <-> In pn proposal_names) /\
  proposal_config_for pn scale d (Some ∅) = proposal_config_for pn scale d None /\
  (pn <> "Laplace" ->
   proposal_config_for pn scale d params = proposal_config_for pn scale d None).
Proof.
  split; [split|split].
  - intros [cfg H]. eapply proposal_config_known, H.
  - intros H. simpl in H. unfold proposal_config_for.
    destruct H as [<-|[<-|[<-|[]]]]; decide_names; eauto.
    destruct (_ ≫= _); eauto.
  - reflexivity.
  - intros H. unfold proposal_config_for.
    now rewrite (string_eqb_neq pn "Laplace") by exact H.
Qed.

Section Catalogues.
Variable super_funnel_data : PyVal -> PyVal -> PyVal -> exn + (list PyVal * list PyVal).

Local Abbreviation get_target := (get_target_distribution super_funnel_data).



(** X8: with [use_torch=False], [get_target_distribution] builds a
    target for eight names; it refuses the five names that exist for
    PyTorch only with a message of their own, and every other name,
    the scaled Gaussian of the accelerated catalogue among them, as
    unknown. *)
Theorem cpu_catalogue name dim kwargs :
  (In name cpu_targets -> exists t, get_target name dim false kwargs = inr t) /\
  (In name torch_only_targets ->
   get_target name dim false kwargs
   = inl (ValueError (name +:+ " distribution only available with PyTorch (use_torch=True)"))) /\
  (~ In name cpu_targets -> ~ In name torch_only_targets ->
   get_target name dim false kwargs = inl unknown_target) /\
  get_target "MultivariateNormalScaled" dim false kwargs = inl unknown_target.
Proof.
  unfold get_target_distribution. cbv zeta. split; [|split; [|split]].
  - intros Hin. simpl in Hin.
    repeat (destruct Hin as [<-|Hin]; [decide_names; eauto|]). contradiction.
  - intros Hin. simpl in Hin.
    repeat (destruct Hin as [<-|Hin]; [decide_names; reflexivity|]). contradiction.
  - intros Hcpu Honly. simpl existsb.
    rewrite !string_eqb_neq; [reflexivity|..]; intros ->.
    all: first [apply Hcpu; simpl; tauto | apply Honly; simpl; tauto].
  - reflexivity.
Qed.

End Catalogues.

(** ** The grid of scale parameters *)

Lemma np_linspace_length (start stop : Q) (num : nat) :
  length (np_linspace start stop num) = num.
Proof. unfold np_linspace. now rewrite length_map, length_seq. Qed.

Lemma grid_lookup (start stop : Q) (i : nat) (x : Q) :
  np_linspace start stop 40 !! i = Some x ->
  (i < 40)%nat /\
  x = if (i =? 39)%nat then stop
      else (start + inject_Z (Z.of_nat i) * grid_step start stop)%Q.
Proof.
  unfold np_linspace. cbv zeta. rewrite lookup_map.
  destruct (seq 0 40 !! i) as [k|] eqn:Hk; [|discriminate].
  apply lookup_seq in Hk. destruct Hk as [-> Hi]. simpl option_map.
  intros [= <-]. split; [exact Hi|reflexivity].
Qed.

Lemma grid_lookup_lt (start stop : Q) (i : nat) :
  (i < 40)%nat -> exists x, np_linspace start stop 40 !! i = Some x.
Proof.
  intros Hi. apply lookup_lt_is_Some_2. now rewrite np_linspace_length.
Qed.

Lemma grid_step_facts (start stop : Q) :
  (start <= stop)%Q ->
  (0 <= grid_step start stop)%Q /\ (39 * grid_step start stop == stop - start)%Q.
Proof.
  intros H.
  assert (Hs : (39 * grid_step start stop == stop - start)%Q).
  { unfold grid_step. change (inject_Z (Z.of_nat 40 - 1)) with 39%Q. field. }
  split; [lra|exact Hs].
Qed.

Lemma index_as_rational (i : nat) :
  (i <= 39)%nat -> (0 <= inject_Z (Z.of_nat i) <= 39)%Q.
Proof.
  intros Hi. split.
  - change 0%Q with (inject_Z 0). rewrite <- Zle_Qle. lia.
  - change 39%Q with (inject_Z 39). rewrite <- Zle_Qle. lia.
Qed.

Lemma grid_bounds (start stop : Q) (i : nat) (x : Q) :
  (start <= stop)%Q ->
  np_linspace start stop 40 !! i = Some x ->
  (start <= x <= stop)%Q.
Proof.
  intros H Hx. apply grid_lookup in Hx. destruct Hx as [Hi ->].
  destruct (grid_step_facts start stop H) as [Hstep Hsum].
  destruct (index_as_rational i ltac:(lia)) as [Hi0 Hi39].
  destruct (i =? 39)%nat; [lra|]. nra.
Qed.

Lemma grid_monotone (start stop : Q) (i j : nat) (x y : Q) :
  (start <= stop)%Q -> (i <= j)%nat ->
  np_linspace start stop 40 !! i = Some x ->
  np_linspace start stop 40 !! j = Some y ->
  (x <= y)%Q.
Proof.
  intros H Hij Hx Hy.
  pose proof (grid_bounds _ _ _ _ H Hx) as Hbx.
  apply grid_lookup in Hx. destruct Hx as [Hi ->].
  apply grid_lookup in Hy. destruct Hy as [Hj ->].
  destruct (grid_step_facts start stop H) as [Hstep Hsum].
  destruct (j =? 39)%nat eqn:Hj39; [lra|]. apply Nat.eqb_neq in Hj39.
  replace (i =? 39)%nat with false by (symmetry; apply Nat.eqb_neq; lia).
  assert (Hq : (inject_Z (Z.of_nat i) <= inject_Z (Z.of_nat j))%Q)
    by (rewrite <- Zle_Qle; lia).
  nra.
Qed.


(** X13: on the grid of a sweep whose [var_max] is at least [0.01],
    and for a positive dimension, every grid point gives a proposal
    with a positive parameter: the variance of the Normal and of the
    isotropic Laplace proposal, the radius of the UniformRadius one. *)
Theorem grid_proposals_positive pn d vmax (i : nat) (x : Q) :
  0 < d ->
  (1 # 100 <= vmax)%Q ->
  In pn proposal_names ->
  np_linspace (1 # 100) vmax 40 !! i = Some x ->
  exists cfg,
    proposal_config_for pn x d None = inr cfg /\
    match cfg with
    | NormalConfig v => (0 < v)%Q
    | LaplaceConfig (inl v) => (0 < v)%Q
    | LaplaceConfig (inr _) => False
    | UniformRadiusConfig r => (0 < r)%Q
    end.
Proof.
  intros Hd Hv Hpn Hx.
  destruct (grid_bounds _ _ _ _ Hv Hx) as [Hlo _].
  assert (Hpos : (0 < x)%Q) by lra.
  assert (Hvar : (0 < x ^ 2 / inject_Z (d ^ 1))%Q).
  { apply Qlt_shift_div_l.
    - change 0%Q with (inject_Z 0). rewrite <- Zlt_Qlt. lia.
    - simpl. nra. }
  simpl in Hpn. unfold proposal_config_for.
  destruct Hpn as [<-|[<-|[<-|[]]]]; decide_names; simpl mbind;
    eexists; (split; [reflexivity|]); assumption.
Qed.

(** ** What a sweep computes and writes *)

Section SweepOutcome.
Variable G : Type.
Variable super_funnel_data : PyVal -> PyVal -> PyVal -> exn + (list PyVal * list PyVal).
Variable simulate : Z -> ProposalConfig -> Z -> TargetDistribution -> Z -> Z ->
                    G -> (exn + SimResult) * G.

Local Abbreviation study := (run_study G super_funnel_data simulate).
Local Abbreviation get_target := (get_target_distribution super_funnel_data).


(** The two series of a sweep that returns have one entry per grid
    point. *)
Lemma sweep_lengths pn d n target seed b params grid accs es g g' :
  sweep G simulate pn d n target seed b params grid [] [] g = (inr (accs, es), g') ->
  length accs = length grid /\ length es = length grid.
Proof.
  intros H. destruct (sweep_returns G simulate _ _ _ _ _ _ _ _ _ _ _ _ _ _ H)
    as (rs & Hobs & -> & ->).
  apply Forall2_length in Hobs. simpl. rewrite !length_map. lia.
Qed.

(** X15: [run_study] called with the default of its parameter
    [target_name] raises the [ValueError] for an unknown target, for
    every other argument, and writes nothing. *)
Theorem default_target_is_unknown dim n vmax seed b pn params kwargs (w : World G) :
  study dim default_target_name n vmax seed b pn params kwargs w
  = (inl unknown_target, w).
Proof.
  unfold run_study.
  rewrite actual_dimension_plain by discriminate.
  rewrite (get_target_unknown G super_funnel_data simulate); [reflexivity|].
  unfold default_target_name. simpl. intuition discriminate.
Qed.



(** X12: the three series a sweep persists are aligned: each has 40
    entries.  The grid starts at [0.01] and ends at [var_max], and
    when [var_max] is at least [0.01] it is non-decreasing and stays
    between these two values. *)
Theorem persisted_series_aligned dim tn n vmax seed b pn params kwargs
    (w : World G) data w' :
  study dim tn n vmax seed b pn params kwargs w = (inr data, w') ->
  length (SweepData.scale_param_range data) = 40%nat /\
  length (SweepData.expected_squared_jump_distances data) = 40%nat /\
  length (SweepData.acceptance_rates data) = 40%nat /\
  (exists x, SweepData.scale_param_range data !! 0%nat = Some x /\ (x == 1 # 100)%Q) /\
  SweepData.scale_param_range data !! 39%nat = Some vmax /\
  ((1 # 100 <= vmax)%Q ->
   forall i j x y, (i <= j)%nat ->
     SweepData.scale_param_range data !! i = Some x ->
     SweepData.scale_param_range data !! j = Some y ->
     (1 # 100 <= x)%Q /\ (x <= y)%Q /\ (y <= vmax)%Q).
Proof.
  intros Hrun.
  destruct (run_study_returns G super_funnel_data simulate _ _ _ _ _ _ _ _ _ _ _ _ Hrun)
    as (target & g1 & _ & _ & Hgrid & Hsweep & _).
  destruct (sweep_lengths _ _ _ _ _ _ _ _ _ _ _ _ Hsweep) as [Haccs Hes].
  rewrite Hgrid in *. rewrite np_linspace_length in Haccs, Hes.
  split; [apply np_linspace_length|]. split; [exact Hes|]. split; [exact Haccs|].
  split; [|split].
  - destruct (grid_lookup_lt (1 # 100) vmax 0 ltac:(lia)) as [x Hx].
    exists x. split; [exact Hx|].
    apply grid_lookup in Hx. destruct Hx as [_ ->]. simpl Nat.eqb. cbv iota.
    change (inject_Z (Z.of_nat 0)) with 0%Q.
    rewrite Qmult_0_l, Qplus_0_r. reflexivity.
  - reflexivity.
  - intros Hv i j x y Hij Hx Hy.
    destruct (grid_bounds _ _ _ _ Hv Hx) as [Hlo _].
    destruct (grid_bounds _ _ _ _ Hv Hy) as [_ Hhi].
    pose proof (grid_monotone _ _ _ _ _ _ Hv Hij Hx Hy). auto.
Qed.
End SweepOutcome.

(** ** The command line *)

Section CommandLine.
Variable G : Type.
Variable super_funnel_data : PyVal -> PyVal -> PyVal -> exn + (list PyVal * list PyVal).
Variable simulate : Z -> ProposalConfig -> Z -> TargetDistribution -> Z -> Z ->
                    G -> (exn + SimResult) * G.
Variable json_loads : string -> option (list Q).

(** X16: started from the command line, the sweep always obtains its
    dimension: [1 + n2 * (n1 - 1)] from the two HybridRosenbrock
    options, [J + J * K + 1 + K + 1 + 1] from the two SuperFunnel
    options, and [--dim] for every other target; this is the dimension
    a sweep that returns has persisted. *)
Theorem main_dimension (args : Args.t) :
  let d := if String.eqb (Args.target args) "HybridRosenbrock" then
             1 + Args.hybrid_rosenbrock_n2 args * (Args.hybrid_rosenbrock_n1 args - 1)
           else if String.eqb (Args.target args) "SuperFunnel" then
             Args.super_funnel_J args
             + Args.super_funnel_J args * Args.super_funnel_K args
             + 1 + Args.super_funnel_K args + 1 + 1
           else Args.dim args in
  actual_dimension (Args.target args) (Args.dim args) (cli_kwargs args) = inr d /\
  forall (w : World G) data w',
    main G super_funnel_data simulate json_loads args w = (inr data, w') ->
    SweepData.dimension data = d.
Proof.
  intros d.
  assert (Hd : actual_dimension (Args.target args) (Args.dim args) (cli_kwargs args)
               = inr d).
  { unfold d, actual_dimension, cli_kwargs, kwargs_get.
    destruct (String.eqb (Args.target args) "HybridRosenbrock") eqn:Hh.
    - reflexivity.
    - destruct (String.eqb (Args.target args) "NealFunnel") eqn:Hn.
      + apply String.eqb_eq in Hn. rewrite Hn. reflexivity.
      + destruct (String.eqb (Args.target args) "SuperFunnel"); reflexivity. }
  split; [exact Hd|].
  intros w data w' Hrun. unfold main in Hrun.
  destruct (run_study_returns G super_funnel_data simulate _ _ _ _ _ _ _ _ _ _ _ _ Hrun)
    as (_ & _ & Hdim & _).
  congruence.
Qed.
End CommandLine.

(** ** The further properties on the concrete instance *)

(** A simulation whose burn-in attribute was set past the end of its
    chain of two states. *)
Local Abbreviation short_chain_simulation :=
  (MCMCSimulation.mk 2 5 None
     (MHAlgorithm.mk 1 1%Q None true [[0%Q]; [1%Q]] 1 1%Q)).

Lemma esjd_nonnegative_witness :
  MCMCSimulation.expected_squared_jump_distance (Lcg.completed 2 1 1) = inr 1%Q /\
  (0 <= 1)%Q.
Proof.
  split; [reflexivity|].
  exact (esjd_nonnegative (Lcg.completed 2 1 1) 1%Q eq_refl).
Defined.


Lemma esjd_zero_without_two_states_witness :
  MCMCSimulation.has_run short_chain_simulation = true /\
  MCMCSimulation.expected_squared_jump_distance short_chain_simulation = inr 0%Q.
Proof.
  split; [reflexivity|].
  apply (esjd_zero_without_two_states short_chain_simulation eq_refl).
  right. vm_compute. discriminate.
Defined.

Lemma zero_iteration_runs_witness :
  MCMCSimulation.num_iterations (Lcg.completed 0 0 7) <= 0 /\
  MCMCSimulation.has_run (Lcg.completed 0 0 7) = false /\
  lcg_generate (Lcg.completed 0 0 7) 9
  = (inr (MHAlgorithm.chain (MCMCSimulation.algorithm (Lcg.completed 0 0 7))),
     Lcg.completed 0 0 7, 9).
Proof.
  assert (Hn : MCMCSimulation.num_iterations (Lcg.completed 0 0 7) <= 0)
    by (vm_compute; discriminate).
  destruct (zero_iteration_runs Lcg.G Lcg.np_random_seed Lcg.initial_state
              Lcg.sample Lcg.accepts Completed (Lcg.completed 0 0 7)
              (lcg_completed_reaches 0 0 7) Hn) as (Hrun & _ & Hgen).
  split; [exact Hn|]. split; [exact Hrun|apply Hgen].
Defined.

Lemma diagnostics_return_iff_witness :
  (exists r, MCMCSimulation.acceptance_rate (Lcg.completed 2 1 1) = inr r)
  <-> Completed = Completed /\ 0 < MCMCSimulation.num_iterations (Lcg.completed 2 1 1).
Proof.
  exact (proj1 (diagnostics_return_iff Lcg.G Lcg.np_random_seed Lcg.initial_state
                  Lcg.sample Lcg.accepts Completed (Lcg.completed 2 1 1)
                  (lcg_completed_reaches 2 1 1))).
Defined.




Lemma persisted_series_aligned_witness :
  exists data w',
    lcg_study 2 "MultivariateNormal" 100 (7#2)%Q 42 10 "Normal" None ∅ lcg_world
    = (inr data, w') /\
    length (SweepData.scale_param_range data) = 40%nat /\
    length (SweepData.expected_squared_jump_distances data) = 40%nat /\
    length (SweepData.acceptance_rates data) = 40%nat /\
    SweepData.scale_param_range data !! 39%nat = Some (7#2)%Q.
Proof.
  destruct (lcg_study 2 "MultivariateNormal" 100 (7#2)%Q 42 10 "Normal" None ∅ lcg_world)
    as [[e|data] w'] eqn:Hrun.
  - vm_compute in Hrun. discriminate Hrun.
  - exists data, w'. split; [reflexivity|].
    destruct (persisted_series_aligned Lcg.G Lcg.super_funnel_data Lcg.simulate
                _ _ _ _ _ _ _ _ _ _ _ _ Hrun)
      as (H1 & H2 & H3 & _ & H5 & _).
    auto.
Defined.

Lemma grid_proposals_positive_witness :
  exists cfg,
    proposal_config_for "UniformRadius" (7#2)%Q 2 None = inr cfg /\
    match cfg with
    | NormalConfig v => (0 < v)%Q
    | LaplaceConfig (inl v) => (0 < v)%Q
    | LaplaceConfig (inr _) => False
    | UniformRadiusConfig r => (0 < r)%Q
    end.
Proof.
  apply (grid_proposals_positive "UniformRadius" 2 (7#2)%Q 39 (7#2)%Q).
  - lia.
  - vm_compute. discriminate.
  - simpl. tauto.
  - reflexivity.
Defined.
